(** * A shallow embedding of [myApp/app.py]

    The application is a FastAPI server with five routes built on four
    outbound calls to the LinkedIn API and a process-wide dictionary
    [user_tokens].  The embedding follows the source function by function:

    - Python values that come out of [response.json()] are the type [json]
      ([JNull] is Python's [None]);
    - [user_tokens] is an insertion-ordered association list, as a Python
      [dict] is, because the routes read [list(user_tokens.keys())[0]];
    - the handlers run in a small monad [M] that threads the dictionary and
      the log of outbound requests, reads the provider's answers from an
      [environment], and can raise.

    Strings are byte strings (UTF-8).  JSON numbers are integers.  Logging is
    left out, except where the logged expression itself can raise. *)

From Stdlib Require Import ZArith List String Ascii Bool Lia DecimalString.
Import ListNotations.
Open Scope string_scope.
Open Scope Z_scope.

(** ** Python values *)

#[local] Set Warnings "-register-all".

Inductive json : Type :=
| JNull
| JBool (b : bool)
| JNum (z : Z)
| JStr (s : string)
| JArr (l : list json)
| JObj (fields : list (string * json)).

(** [bool(v)] *)
Definition truthy (v : json) : bool :=
  match v with
  | JNull => false
  | JBool b => b
  | JNum z => negb (z =? 0)
  | JStr s => negb (s =? "")%string
  | JArr l => match l with [] => false | _ => true end
  | JObj l => match l with [] => false | _ => true end
  end.

(** [bool(s)] for a [str] *)
Definition truthy_str (s : string) : bool := negb (s =? "")%string.

(** [bool(x)] for a value that is a [str] or [None]: a query parameter with
    default [None], or a result of [os.getenv]. *)
Definition truthy_opt (o : option string) : bool :=
  match o with
  | None => false
  | Some s => truthy_str s
  end.

Definition string_of_Z (z : Z) : string := NilZero.string_of_int (Z.to_int z).

(** The hashable values: what a key of a dictionary can be.  A list or a
    dictionary is not hashable. *)
Inductive key : Type :=
| KNone
| KBool (b : bool)
| KNum (z : Z)
| KStr (s : string).

Definition hashable (v : json) : option key :=
  match v with
  | JNull => Some KNone
  | JBool b => Some (KBool b)
  | JNum z => Some (KNum z)
  | JStr s => Some (KStr s)
  | JArr _ | JObj _ => None
  end.

(** [str(k)], as an f-string computes it *)
Definition key_str (k : key) : string :=
  match k with
  | KNone => "None"
  | KBool true => "True"
  | KBool false => "False"
  | KNum z => string_of_Z z
  | KStr s => s
  end.

Definition num_of (b : bool) : Z := if b then 1 else 0.

(** [a == b] on keys: [True == 1] and [False == 0] hold in Python, so
    [d[True]] and [d[1]] are one entry. *)
Definition key_eqb (a b : key) : bool :=
  match a, b with
  | KNone, KNone => true
  | KStr s, KStr t => (s =? t)%string
  | KBool x, KBool y => Bool.eqb x y
  | KBool x, KNum z => num_of x =? z
  | KNum z, KBool y => z =? num_of y
  | KNum z, KNum w => z =? w
  | _, _ => false
  end.

Fixpoint assoc (k : string) (l : list (string * json)) : option json :=
  match l with
  | [] => None
  | (k', v) :: l' => if (k' =? k)%string then Some v else assoc k l'
  end.

(** ** Configuration (lines 19-27) *)

Record config : Type := mkConfig {
  LINKEDIN_CLIENT_ID : option string;
  LINKEDIN_CLIENT_SECRET : option string;
  LINKEDIN_REDIRECT_URI : option string
}.

(** [os.getenv(name, default)] over the process environment. *)
Definition getenv (environ : string -> option string) (name : string)
  (default : option string) : option string :=
  match environ name with
  | Some v => Some v
  | None => default
  end.

Definition load_config (environ : string -> option string) : config :=
  {| LINKEDIN_CLIENT_ID := getenv environ "LINKEDIN_CLIENT_ID" None;
     LINKEDIN_CLIENT_SECRET := getenv environ "LINKEDIN_CLIENT_SECRET" None;
     LINKEDIN_REDIRECT_URI :=
       getenv environ "LINKEDIN_REDIRECT_URI" (Some "http://localhost:8000/callback") |}.

Definition LINKEDIN_AUTH_URL : string := "https://www.linkedin.com/oauth/v2/authorization".
Definition LINKEDIN_TOKEN_URL : string := "https://www.linkedin.com/oauth/v2/accessToken".
Definition LINKEDIN_PROFILE_URL : string := "https://api.linkedin.com/v2/me".
Definition LINKEDIN_POSTS_URL_TEMPLATE : string :=
  "https://api.linkedin.com/v2/ugcPosts?author={{author_urn}}".
Definition LINKEDIN_CREATE_POST_URL : string := "https://api.linkedin.com/v2/ugcPosts".

(** ** [urllib.parse.urlencode] *)

Module Urllib.

Definition is_upper (n : nat) : bool := (Nat.leb 65 n && Nat.leb n 90)%bool.
Definition is_lower (n : nat) : bool := (Nat.leb 97 n && Nat.leb n 122)%bool.
Definition is_digit (n : nat) : bool := (Nat.leb 48 n && Nat.leb n 57)%bool.

(** The bytes [quote] never escapes: letters, digits and [_.-~]. *)
Definition always_safe (c : ascii) : bool :=
  let n := nat_of_ascii c in
  (is_upper n || is_lower n || is_digit n
   || Nat.eqb n 95 || Nat.eqb n 46 || Nat.eqb n 45 || Nat.eqb n 126)%bool.

Definition hex_digit (n : nat) : ascii :=
  if Nat.ltb n 10 then ascii_of_nat (48 + n) else ascii_of_nat (55 + n).

(** [quote_plus(s, safe='')]: a space becomes [+], an unsafe byte [%XX]. *)
Definition quote_byte (c : ascii) : string :=
  if always_safe c then String c ""
  else if Ascii.eqb c " " then "+"
  else
    let n := nat_of_ascii c in
    String "%" (String (hex_digit (Nat.div n 16)) (String (hex_digit (Nat.modulo n 16)) "")).

Fixpoint quote_plus (s : string) : string :=
  match s with
  | "" => ""
  | String c s' => quote_byte c ++ quote_plus s'
  end.

Definition pair_str (kv : string * string) : string :=
  quote_plus (fst kv) ++ "=" ++ quote_plus (snd kv).

(** ['&'.join(...)] *)
Fixpoint join_amp (l : list string) : string :=
  match l with
  | [] => ""
  | [x] => x
  | x :: l' => x ++ "&" ++ join_amp l'
  end.

Definition urlencode (params : list (string * string)) : string :=
  join_amp (map pair_str params).

End Urllib.

(** [s.endswith(suffix)]: some tail of [s] is [suffix]. *)
Fixpoint endswith (s suffix : string) : bool :=
  if (s =? suffix)%string then true
  else match s with
       | "" => false
       | String _ s' => endswith s' suffix
       end.

(** ** [get_linkedin_auth_url] (lines 86-100) *)

Definition scope_value : string := "r_liteprofile r_emailaddress w_member_social".
Definition state_value : string := "some_random_string_to_prevent_csrf".

(** The [str] held by a configuration value that tested true. *)
Definition str_of (o : option string) : string :=
  match o with
  | Some s => s
  | None => ""
  end.

Definition get_linkedin_auth_url (cfg : config) : string :=
  if (negb (truthy_opt (LINKEDIN_CLIENT_ID cfg))
      || negb (truthy_opt (LINKEDIN_REDIRECT_URI cfg)))%bool
  then "/error"
  else
    let params :=
      [ ("response_type", "code");
        ("client_id", str_of (LINKEDIN_CLIENT_ID cfg));
        ("redirect_uri", str_of (LINKEDIN_REDIRECT_URI cfg));
        ("scope", scope_value);
        ("state", state_value) ] in
    LINKEDIN_AUTH_URL ++ "?" ++ Urllib.urlencode params.

(** ** The token store (line 83)

    [user_tokens] maps a profile id to [{"access_token": ..., "author_urn": ...}].
    A Python [dict] keeps its keys in insertion order; assigning to a key that
    is present replaces the value and keeps the key and its position. *)

Record token_info : Type := mkTokenInfo {
  access_token : json;
  author_urn : string
}.

Definition store : Type := list (key * token_info).

(** [d[k] = v] *)
Fixpoint dict_setitem (d : store) (k : key) (v : token_info) : store :=
  match d with
  | [] => [(k, v)]
  | (k', v') :: d' =>
      if key_eqb k' k then (k', v) :: d' else (k', v') :: dict_setitem d' k v
  end.

(** [d[k]], [None] for a [KeyError] *)
Fixpoint dict_getitem (d : store) (k : key) : option token_info :=
  match d with
  | [] => None
  | (k', v) :: d' => if key_eqb k' k then Some v else dict_getitem d' k
  end.

(** ** Outbound requests and the provider *)

Inductive http_method : Type := GET | POST.

(** A header value is a literal, or the f-string [f"Bearer {access_token}"],
    kept with the value it interpolates. *)
Inductive header_value : Type :=
| Literal (s : string)
| Bearer (token : json).

Inductive payload : Type :=
| NoBody
| FormData (data : list (string * string))
| JsonBody (body : json).

Record request : Type := mkRequest {
  req_method : http_method;
  req_url : string;
  req_headers : list (string * header_value);
  req_payload : payload
}.

(** What an [httpx] call gives back: a transport error, or a response with
    its status code and its body ([None] when the body is not JSON). *)
Inductive http_result : Type :=
| ConnectError
| Response (status_code : Z) (body : option json).

(** The provider answers each request; the answer may depend on the
    requests sent before (newest first, the current one at the head). *)
Definition environment : Type := list request -> http_result.

(** ** The monad of the handlers *)

Inductive exn : Type :=
| TypeError
| AttributeError
| KeyError
| IndexError
| JSONDecodeError
| HTTPStatusError
| RequestError.

Inductive result (A : Type) : Type :=
| Return (a : A)
| Raise (e : exn).
Arguments Return {A} a.
Arguments Raise {A} e.

Record state : Type := mkState {
  user_tokens : store;
  outbound : list request
}.

Definition M (A : Type) : Type := environment -> state -> result A * state.

Definition ret {A} (a : A) : M A := fun _ st => (Return a, st).

Definition raise {A} (e : exn) : M A := fun _ st => (Raise e, st).

Definition bind {A B} (m : M A) (k : A -> M B) : M B :=
  fun env st =>
    match m env st with
    | (Return a, st') => k a env st'
    | (Raise e, st') => (Raise e, st')
    end.

(** [try: body / except Exception: handler] *)
Definition try_except {A} (body : M A) (handler : exn -> M A) : M A :=
  fun env st =>
    match body env st with
    | (Return a, st') => (Return a, st')
    | (Raise e, st') => handler e env st'
    end.

Declare Scope py_scope.
Delimit Scope py_scope with py.
Notation "x <- m ;; k" := (bind m (fun x => k))
  (at level 100, m at next level, right associativity) : py_scope.
Notation "m ;;; k" := (bind m (fun _ => k))
  (at level 100, right associativity) : py_scope.
Open Scope py_scope.

Definition lift {A} (r : result A) : M A := fun _ st => (r, st).

Definition get_user_tokens : M store := fun _ st => (Return (user_tokens st), st).

Definition put_user_tokens (d : store) : M unit :=
  fun _ st => (Return tt, mkState d (outbound st)).

(** [await client.get(...)] / [await client.post(...)]: the request is sent
    and logged; a transport failure raises. *)
Definition send (r : request) : M (Z * option json) :=
  fun env st =>
    let sent := r :: outbound st in
    let st' := mkState (user_tokens st) sent in
    match env sent with
    | ConnectError => (Raise RequestError, st')
    | Response code body => (Return (code, body), st')
    end.

(** [response.is_success] *)
Definition is_success (code : Z) : bool := ((200 <=? code) && (code <=? 299))%bool.

(** [response.raise_for_status()]: any status outside 200-299 raises. *)
Definition raise_for_status (resp : Z * option json) : M unit :=
  if is_success (fst resp) then ret tt
  else raise HTTPStatusError.

(** [response.json()] *)
Definition response_json (resp : Z * option json) : M json :=
  match snd resp with
  | Some v => ret v
  | None => raise JSONDecodeError
  end.

(** ** Operations on Python values that can raise *)

(** [v.get(k, default)]: only a [dict] has [get]. *)
Definition py_get (v : json) (k : string) (default : json) : result json :=
  match v with
  | JObj fields =>
      match assoc k fields with
      | Some x => Return x
      | None => Return default
      end
  | _ => Raise AttributeError
  end.

Definition is_substring (needle hay : string) : bool :=
  match index 0 needle hay with
  | Some _ => true
  | None => false
  end.

Definition is_str (s : string) (v : json) : bool :=
  match v with
  | JStr t => (t =? s)%string
  | _ => false
  end.

(** [k in v] for a [str] [k]: key of a dictionary, element of a list,
    substring of a string; the other values are not containers. *)
Definition py_in (k : string) (v : json) : result bool :=
  match v with
  | JObj fields => Return (match assoc k fields with Some _ => true | None => false end)
  | JArr l => Return (existsb (is_str k) l)
  | JStr s => Return (is_substring k s)
  | JNull | JBool _ | JNum _ => Raise TypeError
  end.

(** [v[k]] for a [str] [k] *)
Definition py_getitem (v : json) (k : string) : result json :=
  match v with
  | JObj fields =>
      match assoc k fields with
      | Some x => Return x
      | None => Raise KeyError
      end
  | _ => Raise TypeError
  end.

(** [len(v)] *)
Definition py_len (v : json) : result Z :=
  match v with
  | JStr s => Return (Z.of_nat (String.length s))
  | JArr l => Return (Z.of_nat (List.length l))
  | JObj fields => Return (Z.of_nat (List.length fields))
  | JNull | JBool _ | JNum _ => Raise TypeError
  end.

Fixpoint chars (s : string) : list json :=
  match s with
  | "" => []
  | String c s' => JStr (String c "") :: chars s'
  end.

(** The items a [for] loop over [v] visits: the elements of a list, the
    characters of a string, the keys of a dictionary. *)
Definition py_iter (v : json) : result (list json) :=
  match v with
  | JArr l => Return l
  | JStr s => Return (chars s)
  | JObj fields => Return (map (fun kv => JStr (fst kv)) fields)
  | JNull | JBool _ | JNum _ => Raise TypeError
  end.

(** [template.format(...)] on a template whose braces are all doubled:
    [{{] gives [{] and [}}] gives [}]. *)
Fixpoint unescape_braces (s : string) : string :=
  match s with
  | "" => ""
  | String c s' =>
      match s' with
      | String c' s'' =>
          if ((Ascii.eqb c "{" && Ascii.eqb c' "{") || (Ascii.eqb c "}" && Ascii.eqb c' "}"))%bool
          then String c (unescape_braces s'')
          else String c (unescape_braces s')
      | "" => String c ""
      end
  end.

(** ** Responses of the routes *)

(** The view model built by [fetch_linkedin_posts] (lines 214-218). *)
Record post : Type := mkPost {
  text : json;
  author_name : string;
  timestamp : json
}.

(** Values of a template context. *)
Inductive ctx_value : Type :=
| CRequest
| CBool (b : bool)
| CStr (s : string)
| CPosts (l : list post).

(** What a route function returns.  [HTTPException] is the exception object
    as a returned value: the routes build it and [return] it. *)
Inductive response : Type :=
| RedirectResponse (url : string) (status_code : Z)
| TemplateResponse (name : string) (context : list (string * ctx_value))
| HTTPException (status_code : Z) (detail : string).

(** The status line FastAPI sends for the outcome of a route function.  A
    returned [Response] instance goes out with its own status code
    ([TemplateResponse] defaults to 200).  Any other returned object is
    serialised as the body of the route's default response, status 200: this
    is the case of a returned [HTTPException], which only acts as an error
    response when it is raised.  An exception that escapes the route gives the
    server-error response 500. *)
Definition http_status (r : result response) : Z :=
  match r with
  | Return (RedirectResponse _ code) => code
  | Return (TemplateResponse _ _) => 200
  | Return (HTTPException _ _) => 200
  | Raise _ => 500
  end.

(** ** Helper functions for the LinkedIn calls *)

(** The request of line 119, with the [headers] and [data] of lines 108-115. *)
Definition token_request (cfg : config) (code : string) : request :=
  let headers := [("Content-Type", Literal "application/x-www-form-urlencoded")] in
  let data :=
    [ ("grant_type", "authorization_code");
      ("client_id", str_of (LINKEDIN_CLIENT_ID cfg));
      ("client_secret", str_of (LINKEDIN_CLIENT_SECRET cfg));
      ("redirect_uri", str_of (LINKEDIN_REDIRECT_URI cfg));
      ("code", code) ] in
  mkRequest POST LINKEDIN_TOKEN_URL headers (FormData data).

(** lines 102-129 *)
Definition get_linkedin_access_token (cfg : config) (code : string) : M json :=
  if (negb (truthy_opt (LINKEDIN_CLIENT_ID cfg))
      || negb (truthy_opt (LINKEDIN_CLIENT_SECRET cfg))
      || negb (truthy_opt (LINKEDIN_REDIRECT_URI cfg)))%bool
  then ret JNull
  else
    try_except
      (response <- send (token_request cfg code) ;;
       raise_for_status response ;;;
       token_data <- response_json response ;;
       ret token_data)
      (fun _ => ret JNull).

(** The request of line 139, with the [headers] of line 135. *)
Definition profile_request (access_token : json) : request :=
  let headers := [("Authorization", Bearer access_token)] in
  mkRequest GET LINKEDIN_PROFILE_URL headers NoBody.

(** lines 131-149; line 142 logs [profile_data.get('id')] inside the [try]. *)
Definition get_linkedin_profile (access_token : json) : M json :=
  if negb (truthy access_token) then ret JNull
  else
    try_except
      (response <- send (profile_request access_token) ;;
       raise_for_status response ;;;
       profile_data <- response_json response ;;
       lift (py_get profile_data "id" JNull) ;;;
       ret profile_data)
      (fun _ => ret JNull).

Definition post_body (author_urn post_content : string) : json :=
  JObj
    [ ("author", JStr author_urn);
      ("lifecycleState", JStr "PUBLISHED");
      ("specificContent",
        JObj [ ("com.linkedin.ugc.ShareContent",
                 JObj [ ("shareCommentary", JObj [("text", JStr post_content)]);
                        ("shareMediaCategory", JStr "NONE") ]) ]);
      ("visibility",
        JObj [("com.linkedin.ugc.MemberNetworkVisibility", JStr "PUBLIC")]) ].

(** The request of line 179, with the [headers] of lines 156-160. *)
Definition create_request (access_token : json) (author_urn post_content : string)
  : request :=
  let headers :=
    [ ("Authorization", Bearer access_token);
      ("Content-Type", Literal "application/json");
      ("X-Restli-Protocol-Version", Literal "2.0.0") ] in
  mkRequest POST LINKEDIN_CREATE_POST_URL headers
    (JsonBody (post_body author_urn post_content)).

(** lines 151-189 *)
Definition create_linkedin_post (access_token : json) (author_urn post_content : string)
  : M json :=
  if (negb (truthy access_token) || negb (truthy_str author_urn))%bool then ret JNull
  else
    try_except
      (response <- send (create_request access_token author_urn post_content) ;;
       raise_for_status response ;;;
       post_result <- response_json response ;;
       ret post_result)
      (fun _ => ret JNull).

(** The body of the loop of lines 210-218 for one [post]. *)
Definition format_post (p : json) : M post :=
  specific <- lift (py_get p "specificContent" (JObj [])) ;;
  share <- lift (py_get specific "com.linkedin.ugc.ShareContent" (JObj [])) ;;
  commentary <- lift (py_get share "shareCommentary" (JObj [])) ;;
  post_text <- lift (py_get commentary "text" (JStr "No text available")) ;;
  created <- lift (py_get p "created" (JStr "Unknown Date")) ;;
  ret (mkPost post_text "You" created).

Fixpoint format_posts (items : list json) : M (list post) :=
  match items with
  | [] => ret []
  | p :: items' =>
      formatted <- format_post p ;;
      rest <- format_posts items' ;;
      ret (formatted :: rest)
  end.

(** The request of line 203.  Both braces of the template are doubled, so
    [format] (line 198) has no field to fill and [author_urn] does not appear
    in [fetch_url]. *)
Definition fetch_request (access_token : json) (author_urn : string) : request :=
  let fetch_url := unescape_braces LINKEDIN_POSTS_URL_TEMPLATE in
  let headers := [("Authorization", Bearer access_token)] in
  mkRequest GET fetch_url headers NoBody.

(** lines 192-225; line 206 logs [len(posts_data.get('elements', []))]
    inside the [try]. *)
Definition fetch_linkedin_posts (access_token : json) (author_urn : string)
  : M (list post) :=
  if (negb (truthy access_token) || negb (truthy_str author_urn))%bool then ret []
  else
    try_except
      (response <- send (fetch_request access_token author_urn) ;;
       raise_for_status response ;;;
       posts_data <- response_json response ;;
       elements <- lift (py_get posts_data "elements" (JArr [])) ;;
       lift (py_len elements) ;;;
       items <- lift (py_iter elements) ;;
       formatted_posts <- format_posts items ;;
       ret formatted_posts)
      (fun _ => ret []).

(** ** Reading the token store from a route *)

(** [bool(user_tokens)] *)
Definition tokens_nonempty : M bool :=
  tokens <- get_user_tokens ;;
  ret (match tokens with [] => false | _ :: _ => true end).

(** [list(user_tokens.keys())[0]] *)
Definition first_user_id : M key :=
  tokens <- get_user_tokens ;;
  match tokens with
  | [] => raise IndexError
  | (k, _) :: _ => ret k
  end.

(** [user_tokens[current_user_id]] *)
Definition tokens_getitem (k : key) : M token_info :=
  tokens <- get_user_tokens ;;
  match dict_getitem tokens k with
  | Some v => ret v
  | None => raise KeyError
  end.

(** [user_tokens[user_id] = v] *)
Definition tokens_setitem (k : key) (v : token_info) : M unit :=
  tokens <- get_user_tokens ;;
  put_user_tokens (dict_setitem tokens k v).

(** ** Routes *)

(** [GET /] (lines 230-257) *)
Definition read_root (cfg : config) : M response :=
  is_authenticated <- tokens_nonempty ;;
  if negb is_authenticated then
    let auth_url := get_linkedin_auth_url cfg in
    ret (TemplateResponse "index.html"
           [("request", CRequest); ("is_authenticated", CBool false);
            ("auth_url", CStr auth_url)])
  else
    current_user_id <- first_user_id ;;
    token_info <- tokens_getitem current_user_id ;;
    let access_token := access_token token_info in
    let author_urn := author_urn token_info in
    if (negb (truthy access_token) || negb (truthy_str author_urn))%bool then
      let auth_url := get_linkedin_auth_url cfg in
      ret (TemplateResponse "index.html"
             [("request", CRequest); ("is_authenticated", CBool false);
              ("auth_url", CStr auth_url)])
    else
      posts <- fetch_linkedin_posts access_token author_urn ;;
      ret (TemplateResponse "index.html"
             [("request", CRequest); ("is_authenticated", CBool true);
              ("posts", CPosts posts)]).

(** [GET /login] (lines 259-266) *)
Definition login (cfg : config) : M response :=
  let auth_url := get_linkedin_auth_url cfg in
  if (truthy_str auth_url && negb (endswith auth_url "/error"))%bool then
    ret (RedirectResponse auth_url 307)
  else
    ret (HTTPException 500 "Failed to generate LinkedIn auth URL.").

(** [GET /callback] (lines 268-306).  When the profile id is a list or a
    dictionary, line 294 formats it and line 297 raises [TypeError] (the id
    is not hashable), so the formatted text is never used. *)
Definition callback (cfg : config) (code error state : option string) : M response :=
  if truthy_opt error then
    ret (HTTPException 400 ("LinkedIn authorization failed: " ++ str_of error))
  else if negb (truthy_opt code) then
    ret (HTTPException 400 "No authorization code received.")
  else
    token_data <- get_linkedin_access_token cfg (str_of code) ;;
    no_token <-
      (if negb (truthy token_data) then ret true
       else present <- lift (py_in "access_token" token_data) ;; ret (negb present)) ;;
    if (no_token : bool) then
      ret (HTTPException 500 "Failed to retrieve access token from LinkedIn.")
    else
      access_token <- lift (py_getitem token_data "access_token") ;;
      profile_data <- get_linkedin_profile access_token ;;
      no_profile <-
        (if negb (truthy profile_data) then ret true
         else present <- lift (py_in "id" profile_data) ;; ret (negb present)) ;;
      if (no_profile : bool) then
        ret (HTTPException 500 "Failed to retrieve user profile from LinkedIn.")
      else
        user_id <- lift (py_getitem profile_data "id") ;;
        match hashable user_id with
        | None => raise TypeError
        | Some user_key =>
            let author_urn := "urn:li:person:" ++ key_str user_key in
            tokens_setitem user_key (mkTokenInfo access_token author_urn) ;;;
            ret (RedirectResponse "/" 307)
        end.

(** [POST /create_post] (lines 308-343) *)
Definition create_post (cfg : config) (post_content : string) : M response :=
  if negb (truthy_str post_content) then
    ret (TemplateResponse "index.html"
           [("request", CRequest); ("error", CStr "Post content cannot be empty.");
            ("posts", CPosts [])])
  else
    authenticated <- tokens_nonempty ;;
    if negb authenticated then ret (RedirectResponse "/login" 307)
    else
      current_user_id <- first_user_id ;;
      token_info <- tokens_getitem current_user_id ;;
      let access_token := access_token token_info in
      let author_urn := author_urn token_info in
      if (negb (truthy access_token) || negb (truthy_str author_urn))%bool then
        ret (RedirectResponse "/login" 307)
      else
        post_created <- create_linkedin_post access_token author_urn post_content ;;
        if truthy post_created then ret (RedirectResponse "/" 303)
        else
          posts <- fetch_linkedin_posts access_token author_urn ;;
          ret (TemplateResponse "index.html"
                 [("request", CRequest); ("error", CStr "Failed to create post.");
                  ("posts", CPosts posts)]).

(** [GET /refresh_posts] (lines 345-362) *)
Definition refresh_posts_route (cfg : config) : M response :=
  authenticated <- tokens_nonempty ;;
  if negb authenticated then ret (RedirectResponse "/login" 307)
  else
    current_user_id <- first_user_id ;;
    token_info <- tokens_getitem current_user_id ;;
    let access_token := access_token token_info in
    let author_urn := author_urn token_info in
    if (negb (truthy access_token) || negb (truthy_str author_urn))%bool then
      ret (RedirectResponse "/login" 307)
    else
      posts <- fetch_linkedin_posts access_token author_urn ;;
      ret (TemplateResponse "index.html"
             [("request", CRequest); ("is_authenticated", CBool true);
              ("posts", CPosts posts)]).

(** ** Vocabulary of the statements *)

(** The shape of the URL that [get_linkedin_auth_url] builds from a client
    id and a redirect URI. *)
Definition provider_url (client_id redirect_uri : string) : string :=
  LINKEDIN_AUTH_URL ++ "?response_type=code&client_id=" ++ Urllib.quote_plus client_id
  ++ "&redirect_uri=" ++ Urllib.quote_plus redirect_uri
  ++ "&scope=r_liteprofile+r_emailaddress+w_member_social"
  ++ "&state=some_random_string_to_prevent_csrf".

(** A configuration value is absent when it is unset or empty: the values
    on which Python's [not] is true. *)
Definition absent (o : option string) : Prop := o = None \/ o = Some "".

(** A handler leaves the token store as it found it, whatever it returns
    or raises. *)
Definition keeps_tokens {A} (m : M A) : Prop :=
  forall env st, user_tokens (snd (m env st)) = user_tokens st.

(** A handler returns: no exception escapes it. *)
Definition returns {A} (m : M A) : Prop :=
  forall env st, exists a st', m env st = (Return a, st').

(** The outbound call failed: a transport error, or a status outside
    200-299. *)
Inductive call_fails : http_result -> Prop :=
| fails_transport : call_fails ConnectError
| fails_status code body : is_success code = false -> call_fails (Response code body).

(** The parsed body is a dictionary with an ["elements"] field. *)
Definition has_elements (v : json) : bool :=
  match v with
  | JObj fields => match assoc "elements" fields with Some _ => true | None => false end
  | _ => false
  end.

Inductive lacks_elements : http_result -> Prop :=
| lacks_elements_body code v :
    has_elements v = false -> lacks_elements (Response code (Some v)).

(** A computation that changes nothing: it sends and stores nothing. *)
Definition silent {A} (m : M A) : Prop :=
  forall env st, snd (m env st) = st.

(** The state once [r] has been sent. *)
Definition sent (r : request) (st : state) : state :=
  mkState (user_tokens st) (r :: outbound st).

(** A computation is blind to the token store: its outcome and the requests
    it sends are the same for every store, and it hands the store back. *)
Definition store_blind {A} (m : M A) : Prop :=
  forall env log, exists r log',
    forall tokens, m env (mkState tokens log) = (r, mkState tokens log').

(** What [GET /] and [GET /refresh_posts] do once they hold [token_info]
    (lines 245-257 and 354-362); [fallback] is the response for a record
    whose token or URN is missing. *)
Definition posts_page_with (fallback : response) (token_info : token_info) : M response :=
  let access_token := access_token token_info in
  let author_urn := author_urn token_info in
  if (negb (truthy access_token) || negb (truthy_str author_urn))%bool then ret fallback
  else
    posts <- fetch_linkedin_posts access_token author_urn ;;
    ret (TemplateResponse "index.html"
           [("request", CRequest); ("is_authenticated", CBool true);
            ("posts", CPosts posts)]).

(** What [POST /create_post] does once it holds [token_info]
    (lines 321-343). *)
Definition create_post_with (token_info : token_info) (post_content : string) : M response :=
  let access_token := access_token token_info in
  let author_urn := author_urn token_info in
  if (negb (truthy access_token) || negb (truthy_str author_urn))%bool then
    ret (RedirectResponse "/login" 307)
  else
    post_created <- create_linkedin_post access_token author_urn post_content ;;
    if truthy post_created then ret (RedirectResponse "/" 303)
    else
      posts <- fetch_linkedin_posts access_token author_urn ;;
      ret (TemplateResponse "index.html"
             [("request", CRequest); ("error", CStr "Failed to create post.");
              ("posts", CPosts posts)]).

(** The page of [GET /] for a visitor who has to log in. *)
Definition login_page (cfg : config) : response :=
  TemplateResponse "index.html"
    [("request", CRequest); ("is_authenticated", CBool false);
     ("auth_url", CStr (get_linkedin_auth_url cfg))].

(** Every key is on the scale of one of [None], an integer, a string;
    [True] and [False] sit at 1 and 0. *)
Definition key_norm (k : key) : key :=
  match k with
  | KBool b => KNum (num_of b)
  | _ => k
  end.

(** The state once [callback] has stored the session of user [k]
    (lines 294-302). *)
Definition stored (st : state) (k : key) (tok : json) : state :=
  mkState
    (dict_setitem (user_tokens st) k (mkTokenInfo tok ("urn:li:person:" ++ key_str k)))
    (outbound st).

(** The test [not v or k not in v] of lines 282 and 289. *)
Definition missing (k : string) (v : json) : M bool :=
  if negb (truthy v) then ret true
  else present <- lift (py_in k v) ;; ret (negb present).

(** ** Sample data *)

Definition sample_config : config :=
  mkConfig (Some "client") (Some "secret") (Some "http://localhost:8000/callback").

Definition sample_post : json :=
  JObj [ ("specificContent",
           JObj [("com.linkedin.ugc.ShareContent",
                   JObj [("shareCommentary", JObj [("text", JStr "hello")])])]);
         ("created", JNum 1700000000000) ].

(** A provider that grants the token "tok" to the user "123" and lists one
    post; it accepts or refuses a new post as [create_ok] says. *)
Definition sample_provider (create_ok : bool) : environment :=
  fun log =>
    match log with
    | [] => ConnectError
    | r :: _ =>
        if (req_url r =? LINKEDIN_TOKEN_URL)%string then
          Response 200 (Some (JObj [("access_token", JStr "tok"); ("expires_in", JNum 5184000)]))
        else if (req_url r =? LINKEDIN_PROFILE_URL)%string then
          Response 200 (Some (JObj [("id", JStr "123")]))
        else
          match req_method r with
          | POST =>
              if create_ok then Response 201 (Some (JObj [("id", JStr "urn:li:share:1")]))
              else Response 403 None
          | GET => Response 200 (Some (JObj [("elements", JArr [sample_post])]))
          end
    end.

Definition sample_session : token_info := mkTokenInfo (JStr "tok") "urn:li:person:123".

(** ** The text-generation helper (lines 35-70)

    The two functions format the caught exception into the string they
    return ([f"...{e}"]); the text of an exception is the library's, so it is
    a parameter [exn_text]. *)

(** [v[0]] on a string gives its first character: the first byte and the
    continuation bytes (128-191) that follow it. *)
Fixpoint continuation (s : string) : string :=
  match s with
  | "" => ""
  | String c s' =>
      if (Nat.leb 128 (nat_of_ascii c) && Nat.leb (nat_of_ascii c) 191)%bool
      then String c (continuation s')
      else ""
  end.

(** [v[0]] *)
Definition py_first (v : json) : result json :=
  match v with
  | JArr (x :: _) => Return x
  | JArr [] => Raise IndexError
  | JStr (String c s) => Return (JStr (String c (continuation s)))
  | JStr "" => Raise IndexError
  | JObj _ => Raise KeyError
  | JNull | JBool _ | JNum _ => Raise TypeError
  end.

Definition gemini_endpoint (api_key : string) : string :=
  "https://generativelanguage.googleapis.com/v1beta/models/gemini-flash-lite:generateContent?key="
  ++ api_key.

(** The request of line 51, with the [payload] of lines 47-49. *)
Definition gemini_request (api_key prompt : string) : request :=
  let payload :=
    JObj [("contents", JArr [JObj [("parts", JArr [JObj [("text", JStr prompt)]])]])] in
  mkRequest POST (gemini_endpoint api_key) [] (JsonBody payload).

(** [result['candidates'][0]] *)
Definition first_candidate (result : json) : M json :=
  candidates <- lift (py_getitem result "candidates") ;;
  lift (py_first candidates).

(** The condition of line 55 *)
Definition has_candidates (result : json) : M bool :=
  if negb (truthy result) then ret false
  else
    present <- lift (py_in "candidates" result) ;;
    if negb present then ret false
    else
      candidates <- lift (py_getitem result "candidates") ;;
      ret (truthy candidates).

(** The condition of line 56 *)
Definition has_parts (result : json) : M bool :=
  candidate <- first_candidate result ;;
  present <- lift (py_in "content" candidate) ;;
  if negb present then ret false
  else
    candidate <- first_candidate result ;;
    content <- lift (py_getitem candidate "content") ;;
    present <- lift (py_in "parts" content) ;;
    if negb present then ret false
    else
      candidate <- first_candidate result ;;
      content <- lift (py_getitem candidate "content") ;;
      parts <- lift (py_getitem content "parts") ;;
      ret (truthy parts).

(** The expression returned on line 57 *)
Definition candidate_text (result : json) : M json :=
  candidate <- first_candidate result ;;
  content <- lift (py_getitem candidate "content") ;;
  parts <- lift (py_getitem content "parts") ;;
  part <- lift (py_first parts) ;;
  lift (py_getitem part "text").

(** The newline of the prompt of line 69 *)
Definition newline : string := String (ascii_of_nat 10) "".

Section Gemini.

Variable exn_text : exn -> string.

(** lines 35-65 *)
Definition generate_post_content_with_gemini (GEMINI_API_KEY : option string)
  (prompt : string) : M json :=
  if negb (truthy_opt GEMINI_API_KEY) then
    ret (JStr "Gemini API key is missing. Please configure it.")
  else
    try_except
      (response <- send (gemini_request (str_of GEMINI_API_KEY) prompt) ;;
       raise_for_status response ;;;
       result <- response_json response ;;
       candidates <- has_candidates result ;;
       if (candidates : bool) then
         parts <- has_parts result ;;
         if (parts : bool) then candidate_text result
         else ret (JStr "Could not generate content from Gemini.")
       else ret (JStr "Could not generate content from Gemini."))
      (fun e =>
         match e with
         | HTTPStatusError =>
             ret (JStr ("Error generating content with Gemini: " ++ exn_text e))
         | _ =>
             ret (JStr ("An unexpected error occurred with Gemini: " ++ exn_text e))
         end).

(** lines 67-70 *)
Definition summarize_post_with_gemini (GEMINI_API_KEY : option string)
  (post_text : string) : M json :=
  let prompt :=
    "Please summarize the following LinkedIn post:" ++ newline ++ newline ++ post_text in
  generate_post_content_with_gemini GEMINI_API_KEY prompt.

End Gemini.

(** ** The application: its routes and its first state *)

(** A request to one of the five routes (lines 230, 259, 268, 308, 345). *)
Inductive route_call : Type :=
| GetRoot
| GetLogin
| GetCallback (code error state : option string)
| PostCreatePost (post_content : string)
| GetRefreshPosts.

(** What the server answers: the outcome of the route function, or the
    framework's own answer 422 when the request does not pass the validation
    of the route's parameters, in which case the route function is not
    run. *)
Inductive served : Type :=
| Routed (r : response)
| Unprocessable.

Definition routed (route : M response) : M served :=
  r <- route ;; ret (Routed r).

(** [post_content: str = Form(...)] (line 309) declares a required form
    field, and FastAPI takes an empty value of a form field for a missing
    one: a request whose [post_content] is empty is answered 422 before
    [create_post] is called.  The query parameters of [callback] default to
    [None] and pass as they are. *)
Definition serve (cfg : config) (c : route_call) : M served :=
  match c with
  | GetRoot => routed (read_root cfg)
  | GetLogin => routed (login cfg)
  | GetCallback code error state => routed (callback cfg code error state)
  | PostCreatePost post_content =>
      if truthy_str post_content then routed (create_post cfg post_content)
      else ret Unprocessable
  | GetRefreshPosts => routed (refresh_posts_route cfg)
  end.

(** The status line of what the server answers. *)
Definition served_status (r : result served) : Z :=
  match r with
  | Return (Routed response) => http_status (Return response)
  | Return Unprocessable => 422
  | Raise _ => 500
  end.

(** The state after the requests [calls] have been served in turn; a route
    that raised has answered 500 and the server goes on. *)
Fixpoint serve_all (cfg : config) (env : environment) (calls : list route_call)
  (st : state) : state :=
  match calls with
  | [] => st
  | c :: calls' => serve_all cfg env calls' (snd (serve cfg c env st))
  end.

(** [user_tokens = {}] (line 83), nothing sent yet. *)
Definition initial_state : state := mkState [] [].

(** ** More vocabulary *)

(** A stored record with which the routes call the provider. *)
Definition valid_session (ti : token_info) : Prop :=
  truthy (access_token ti) = true /\ truthy_str (author_urn ti) = true.

Definition valid_store (d : store) : Prop :=
  Forall (fun entry => valid_session (snd entry)) d.

(** The four LinkedIn endpoints the application calls. *)
Definition linkedin_endpoint (r : request) : Prop :=
  In (req_url r)
    [ LINKEDIN_TOKEN_URL; LINKEDIN_PROFILE_URL;
      unescape_braces LINKEDIN_POSTS_URL_TEMPLATE; LINKEDIN_CREATE_POST_URL ].

(** A computation sends at most [n] requests, all of them in [P], on top of
    the requests sent before. *)
Definition sends_upto (P : request -> Prop) (n : nat) {A} (m : M A) : Prop :=
  forall env st, exists new,
    outbound (snd (m env st)) = (new ++ outbound st)%list
    /\ (List.length new <= n)%nat
    /\ Forall P new.

(** A continuation byte of UTF-8 (128-191) *)
Definition is_cont (c : ascii) : bool :=
  (Nat.leb 128 (nat_of_ascii c) && Nat.leb (nat_of_ascii c) 191)%bool.

Definition in_range (lo hi : nat) (c : ascii) : bool :=
  (Nat.leb lo (nat_of_ascii c) && Nat.leb (nat_of_ascii c) hi)%bool.

(** The byte string is the UTF-8 encoding of a text, as Python's strict
    decoder accepts it: no stray or missing continuation byte, no overlong
    form, no surrogate, nothing above U+10FFFF.  [os.getenv] turns any other
    byte into a lone surrogate, which [urlencode] refuses to encode. *)
Fixpoint valid_utf8 (s : string) : bool :=
  match s with
  | "" => true
  | String c s1 =>
      let n := nat_of_ascii c in
      if Nat.leb n 127 then valid_utf8 s1
      else
        match s1 with
        | "" => false
        | String c1 s2 =>
            if in_range 194 223 c then is_cont c1 && valid_utf8 s2
            else
              match s2 with
              | "" => false
              | String c2 s3 =>
                  if in_range 224 239 c then
                    (if Nat.eqb n 224 then in_range 160 191 c1
                     else if Nat.eqb n 237 then in_range 128 159 c1
                     else is_cont c1)
                    && is_cont c2 && valid_utf8 s3
                  else
                    match s3 with
                    | "" => false
                    | String c3 s4 =>
                        if in_range 240 244 c then
                          (if Nat.eqb n 240 then in_range 144 191 c1
                           else if Nat.eqb n 244 then in_range 128 143 c1
                           else is_cont c1)
                          && is_cont c2 && is_cont c3 && valid_utf8 s4
                        else false
                    end
              end
        end
  end%bool.

(** A configuration value that holds a text. *)
Definition text_value (o : option string) : Prop :=
  exists s, o = Some s /\ s <> "" /\ valid_utf8 s = true.

(** What [str.format] can do with a template: give the text, raise
    ([ValueError] for a single brace, [IndexError] for a positional field,
    as there are no positional arguments, [KeyError] for a name that is not
    among the keyword arguments), or meet syntax that is not modelled: a
    conversion, a format specification, an attribute or an index in a field,
    a brace inside a field. *)
Inductive format_error : Type :=
| FormatValueError
| FormatIndexError
| FormatKeyError.

Inductive format_outcome : Type :=
| Formatted (text : string)
| FormatRaises (e : format_error)
| NotModelled.

Definition is_digits (s : string) : bool :=
  forallb (fun c => in_range 48 57 c) (list_ascii_of_string s).

Fixpoint lookup_kwarg (name : string) (kwargs : list (string * string)) : option string :=
  match kwargs with
  | [] => None
  | (k, v) :: kwargs' => if (k =? name)%string then Some v else lookup_kwarg name kwargs'
  end.

(** The value of the field [{name}] *)
Definition format_field (name : string) (kwargs : list (string * string)) : format_outcome :=
  if is_digits name then FormatRaises FormatIndexError
  else match lookup_kwarg name kwargs with
       | Some v => Formatted v
       | None => FormatRaises FormatKeyError
       end.

Definition prepend (text : string) (rest : format_outcome) : format_outcome :=
  match rest with
  | Formatted s => Formatted (text ++ s)
  | other => other
  end.

Definition not_in_field (c : ascii) : bool :=
  (Ascii.eqb c "!" || Ascii.eqb c ":" || Ascii.eqb c "." || Ascii.eqb c "["
   || Ascii.eqb c "{")%bool.

(** The scan of [str.format] over literal text, doubled braces and plain
    named fields; [field] is the text of the field being read, [None]
    outside a field. *)
Fixpoint format_from (template : string) (field : option string)
  (kwargs : list (string * string)) : format_outcome :=
  match template, field with
  | "", None => Formatted ""
  | "", Some _ => FormatRaises FormatValueError
  | String c rest, Some name =>
      if Ascii.eqb c "}" then
        match format_field name kwargs with
        | Formatted v => prepend v (format_from rest None kwargs)
        | other => other
        end
      else if not_in_field c then NotModelled
      else format_from rest (Some (name ++ String c "")) kwargs
  | String c rest, None =>
      if Ascii.eqb c "{" then
        match rest with
        | String c' rest' =>
            if Ascii.eqb c' "{" then prepend "{" (format_from rest' None kwargs)
            else format_from rest (Some "") kwargs
        | "" => FormatRaises FormatValueError
        end
      else if Ascii.eqb c "}" then
        match rest with
        | String c' rest' =>
            if Ascii.eqb c' "}" then prepend "}" (format_from rest' None kwargs)
            else FormatRaises FormatValueError
        | "" => FormatRaises FormatValueError
        end
      else prepend (String c "") (format_from rest None kwargs)
  end.

(** [template.format(name=value, ...)] *)
Definition str_format (template : string) (kwargs : list (string * string))
  : format_outcome :=
  format_from template None kwargs.

(** The bytes that [quote_plus] can produce. *)
Definition query_safe (c : ascii) : bool :=
  (Urllib.always_safe c || Ascii.eqb c "+" || Ascii.eqb c "%")%bool.

(** The view of one element of the provider's list, when it has one: the
    element and every dictionary on the path to its text must be
    dictionaries. *)
Definition view_post (p : json) : option post :=
  match py_get p "specificContent" (JObj []) with
  | Return specific =>
      match py_get specific "com.linkedin.ugc.ShareContent" (JObj []) with
      | Return share =>
          match py_get share "shareCommentary" (JObj []) with
          | Return commentary =>
              match py_get commentary "text" (JStr "No text available"),
                    py_get p "created" (JStr "Unknown Date") with
              | Return post_text, Return created => Some (mkPost post_text "You" created)
              | _, _ => None
              end
          | Raise _ => None
          end
      | Raise _ => None
      end
  | Raise _ => None
  end.

Fixpoint view_posts (items : list json) : option (list post) :=
  match items with
  | [] => Some []
  | p :: items' =>
      match view_post p, view_posts items' with
      | Some v, Some vs => Some (v :: vs)
      | _, _ => None
      end
  end.

(** The parsed body of an answer that [raise_for_status] and [json()] accept. *)
Definition parsed_body (answer : http_result) : option json :=
  match answer with
  | Response code (Some v) => if is_success code then Some v else None
  | _ => None
  end.

(** A truthy payload that is not a dictionary and passes or breaks the
    test [k in payload]: a list that holds the string [k], a string that
    contains it, [True] or a number other than zero. *)
Definition odd_payload (k : string) (v : json) : bool :=
  match v with
  | JNull | JObj _ => false
  | JBool b => b
  | JNum z => negb (z =? 0)
  | JStr s => is_substring k s
  | JArr l => existsb (is_str k) l
  end.

(** A provider whose every answer is the JSON list [["access_token"]]. *)
Definition odd_provider : environment :=
  fun _ => Response 200 (Some (JArr [JStr "access_token"])).

(** A provider that is down. *)
Definition no_provider : environment := fun _ => ConnectError.

(** A provider that answers every request with 201 and the empty JSON
    object. *)
Definition empty_body_provider : environment :=
  fun _ => Response 201 (Some (JObj [])).

Definition is_callback (c : route_call) : bool :=
  match c with
  | GetCallback _ _ _ => true
  | _ => false
  end.

(** A text for each exception, for the samples. *)
Definition sample_exn_text (e : exn) : string :=
  match e with
  | HTTPStatusError => "Client error '403 Forbidden'"
  | RequestError => "All connection attempts failed"
  | _ => "error"
  end.

(** A generation service that answers with one candidate. *)
Definition sample_gemini : environment :=
  fun _ =>
    Response 200
      (Some (JObj [("candidates",
                     JArr [JObj [("content",
                                   JObj [("parts", JArr [JObj [("text", JStr "A post.")]])])]])])).

(** * Properties *)

(** ** Strings *)

Lemma append_assoc (a b c : string) : (a ++ b) ++ c = a ++ (b ++ c).
Proof. induction a as [|x a IH]; simpl; [reflexivity | now rewrite IH]. Qed.

Lemma length_append (a b : string) :
  String.length (a ++ b) = (String.length a + String.length b)%nat.
Proof. induction a as [|x a IH]; simpl; [reflexivity | now rewrite IH]. Qed.

Lemma eqb_length_neq (a b : string) :
  String.length a <> String.length b -> (a =? b)%string = false.
Proof. intros H. apply String.eqb_neq. intros ->. now apply H. Qed.

(** A string that ends with a tail longer than [suffix] ends with [suffix]
    only if that tail does. *)
Lemma endswith_app (p t suffix : string) :
  (String.length suffix < String.length t)%nat ->
  endswith (p ++ t) suffix = endswith t suffix.
Proof.
  intros Hlen. induction p as [|c p IH]; [reflexivity|].
  cbn [append endswith]. rewrite IH.
  rewrite eqb_length_neq; [reflexivity|].
  cbn [String.length]. rewrite length_append. lia.
Qed.

Example unescaped_template :
  unescape_braces LINKEDIN_POSTS_URL_TEMPLATE
  = "https://api.linkedin.com/v2/ugcPosts?author={author_urn}".
Proof. reflexivity. Qed.

Example key_str_num : key_str (KNum (-42)) = "-42" /\ key_str (KNum 0) = "0".
Proof. split; reflexivity. Qed.

Example auth_url_example :
  get_linkedin_auth_url (mkConfig (Some "abc 1") None (Some "http://localhost:8000/callback"))
  = "https://www.linkedin.com/oauth/v2/authorization?response_type=code&client_id=abc+1&redirect_uri=http%3A%2F%2Flocalhost%3A8000%2Fcallback&scope=r_liteprofile+r_emailaddress+w_member_social&state=some_random_string_to_prevent_csrf".
Proof. reflexivity. Qed.

(** ** The authorization URL *)

Lemma absent_truthy (o : option string) : absent o <-> truthy_opt o = false.
Proof.
  unfold absent. destruct o as [s|]; simpl.
  - unfold truthy_str. destruct (String.eqb_spec s ""); simpl; split; intros H.
    + reflexivity.
    + right. now subst.
    + destruct H as [H|H]; [discriminate | now inversion H].
    + discriminate.
  - split; [reflexivity | now left].
Qed.

Lemma present_truthy (o : option string) :
  ~ absent o -> exists s, o = Some s /\ s <> "" /\ truthy_opt o = true.
Proof.
  intros H. destruct o as [s|].
  - exists s. repeat split.
    + intros ->. apply H. now right.
    + simpl. unfold truthy_str. destruct (String.eqb_spec s ""); [|reflexivity].
      subst. exfalso. apply H. now right.
  - exfalso. apply H. now left.
Qed.

Lemma auth_url_built (cfg : config) :
  truthy_opt (LINKEDIN_CLIENT_ID cfg) = true ->
  truthy_opt (LINKEDIN_REDIRECT_URI cfg) = true ->
  get_linkedin_auth_url cfg
  = provider_url (str_of (LINKEDIN_CLIENT_ID cfg)) (str_of (LINKEDIN_REDIRECT_URI cfg)).
Proof.
  intros H1 H2. unfold get_linkedin_auth_url, provider_url. rewrite H1, H2.
  cbn [negb orb]. unfold Urllib.urlencode.
  cbn [map Urllib.join_amp Urllib.pair_str fst snd].
  change (Urllib.quote_plus "response_type") with "response_type".
  change (Urllib.quote_plus "code") with "code".
  change (Urllib.quote_plus "client_id") with "client_id".
  change (Urllib.quote_plus "redirect_uri") with "redirect_uri".
  change (Urllib.quote_plus "scope") with "scope".
  change (Urllib.quote_plus "state") with "state".
  change (Urllib.quote_plus scope_value)
    with "r_liteprofile+r_emailaddress+w_member_social".
  change (Urllib.quote_plus state_value) with "some_random_string_to_prevent_csrf".
  repeat rewrite append_assoc. reflexivity.
Qed.

(** With the default of line 21 the redirect URI is absent only when the
    variable is set and empty. *)
Lemma load_config_redirect_uri environ :
  environ "LINKEDIN_REDIRECT_URI" = None ->
  LINKEDIN_REDIRECT_URI (load_config environ) = Some "http://localhost:8000/callback".
Proof. intros H. cbn. unfold getenv. now rewrite H. Qed.

Example no_configuration :
  get_linkedin_auth_url (load_config (fun _ => None)) = "/error".
Proof. reflexivity. Qed.



(** ** The monad *)

Lemma keeps_ret {A} (a : A) : keeps_tokens (ret a).
Proof. intros env st. reflexivity. Qed.

Lemma keeps_raise {A} (e : exn) : keeps_tokens (@raise A e).
Proof. intros env st. reflexivity. Qed.

Lemma keeps_lift {A} (r : result A) : keeps_tokens (lift r).
Proof. intros env st. reflexivity. Qed.

Lemma keeps_get : keeps_tokens get_user_tokens.
Proof. intros env st. reflexivity. Qed.

Lemma keeps_bind {A B} (m : M A) (k : A -> M B) :
  keeps_tokens m -> (forall a, keeps_tokens (k a)) -> keeps_tokens (bind m k).
Proof.
  intros Hm Hk env st. unfold bind. specialize (Hm env st).
  destruct (m env st) as [[a|e] st1]; simpl in *.
  - now rewrite Hk.
  - assumption.
Qed.

Lemma keeps_try {A} (body : M A) (handler : exn -> M A) :
  keeps_tokens body -> (forall e, keeps_tokens (handler e)) ->
  keeps_tokens (try_except body handler).
Proof.
  intros Hb Hh env st. unfold try_except. specialize (Hb env st).
  destruct (body env st) as [[a|e] st1]; simpl in *.
  - assumption.
  - now rewrite Hh.
Qed.

Lemma keeps_send (r : request) : keeps_tokens (send r).
Proof. intros env st. unfold send. now destruct (env _). Qed.

Lemma keeps_raise_for_status resp : keeps_tokens (raise_for_status resp).
Proof. unfold raise_for_status. destruct (is_success _); [apply keeps_ret | apply keeps_raise]. Qed.

Lemma keeps_response_json resp : keeps_tokens (response_json resp).
Proof. unfold response_json. destruct (snd resp); [apply keeps_ret | apply keeps_raise]. Qed.

Create HintDb keeps.
#[local] Hint Resolve keeps_ret keeps_raise keeps_lift keeps_get keeps_send
  keeps_raise_for_status keeps_response_json : keeps.

(** Steps through a handler built from [bind], [try_except], conditionals
    and matches, leaving the calls for the hint database. *)
Ltac keeps_step :=
  match goal with
  | |- keeps_tokens (bind _ _) => apply keeps_bind; [|intros]
  | |- keeps_tokens (try_except _ _) => apply keeps_try; [|intros]
  | |- keeps_tokens (if ?b then _ else _) => destruct b
  | |- keeps_tokens (match ?x with _ => _ end) => destruct x
  | |- keeps_tokens _ => solve [auto with keeps]
  end.

Ltac keeps := repeat keeps_step.

Lemma keeps_format_posts items : keeps_tokens (format_posts items).
Proof.
  induction items as [|p items IH]; cbn [format_posts]; [apply keeps_ret|].
  apply keeps_bind; [unfold format_post; keeps|]. intros.
  apply keeps_bind; [assumption|]. intros. apply keeps_ret.
Qed.

Lemma keeps_fetch_linkedin_posts access_token author_urn :
  keeps_tokens (fetch_linkedin_posts access_token author_urn).
Proof.
  unfold fetch_linkedin_posts.
  pose proof keeps_format_posts. keeps.
Qed.

Lemma keeps_create_linkedin_post access_token author_urn post_content :
  keeps_tokens (create_linkedin_post access_token author_urn post_content).
Proof. unfold create_linkedin_post. keeps. Qed.

Lemma keeps_get_linkedin_access_token cfg code :
  keeps_tokens (get_linkedin_access_token cfg code).
Proof. unfold get_linkedin_access_token. keeps. Qed.

Lemma keeps_get_linkedin_profile access_token :
  keeps_tokens (get_linkedin_profile access_token).
Proof. unfold get_linkedin_profile. keeps. Qed.

#[local] Hint Resolve keeps_fetch_linkedin_posts keeps_create_linkedin_post
  keeps_get_linkedin_access_token keeps_get_linkedin_profile : keeps.

Lemma keeps_tokens_nonempty : keeps_tokens tokens_nonempty.
Proof. unfold tokens_nonempty. keeps. Qed.

Lemma keeps_first_user_id : keeps_tokens first_user_id.
Proof. unfold first_user_id. keeps. Qed.

Lemma keeps_tokens_getitem k : keeps_tokens (tokens_getitem k).
Proof. unfold tokens_getitem. keeps. Qed.

#[local] Hint Resolve keeps_tokens_nonempty keeps_first_user_id keeps_tokens_getitem : keeps.

Lemma keeps_read_root cfg : keeps_tokens (read_root cfg).
Proof. unfold read_root. keeps. Qed.

Lemma keeps_login cfg : keeps_tokens (login cfg).
Proof. unfold login. keeps. Qed.

Lemma keeps_create_post cfg post_content : keeps_tokens (create_post cfg post_content).
Proof. unfold create_post. keeps. Qed.

Lemma keeps_refresh_posts_route cfg : keeps_tokens (refresh_posts_route cfg).
Proof. unfold refresh_posts_route. keeps. Qed.

(** ** [fetch_linkedin_posts] *)

Lemma returns_try {A} (body : M A) (handler : exn -> M A) :
  (forall e, returns (handler e)) -> returns (try_except body handler).
Proof.
  intros Hh env st. unfold try_except.
  destruct (body env st) as [[a|e] st1].
  - now exists a, st1.
  - apply Hh.
Qed.

Lemma returns_ret {A} (a : A) : returns (ret a).
Proof. intros env st. now exists a, st. Qed.

Lemma returns_fetch_linkedin_posts access_token author_urn :
  returns (fetch_linkedin_posts access_token author_urn).
Proof.
  unfold fetch_linkedin_posts. destruct (_ || _)%bool.
  - apply returns_ret.
  - apply returns_try. intros e. apply returns_ret.
Qed.

Lemma returns_create_linkedin_post access_token author_urn post_content :
  returns (create_linkedin_post access_token author_urn post_content).
Proof.
  unfold create_linkedin_post. destruct (_ || _)%bool.
  - apply returns_ret.
  - apply returns_try. intros e. apply returns_ret.
Qed.

Lemma fetch_without_session access_token author_urn env st :
  truthy access_token = false \/ truthy_str author_urn = false ->
  fetch_linkedin_posts access_token author_urn env st = (Return [], st).
Proof.
  intros H. unfold fetch_linkedin_posts.
  replace (negb (truthy access_token) || negb (truthy_str author_urn))%bool with true.
  - reflexivity.
  - destruct H as [-> | ->]; [reflexivity | now rewrite orb_true_r].
Qed.

Lemma fetch_on_bad_answer access_token author_urn env st :
  let answer := env (fetch_request access_token author_urn :: outbound st) in
  call_fails answer \/ lacks_elements answer ->
  fst (fetch_linkedin_posts access_token author_urn env st) = Return [].
Proof.
  intros answer H. unfold fetch_linkedin_posts.
  destruct (_ || _)%bool; [reflexivity|].
  unfold try_except, bind, send. fold answer.
  destruct H as [[|code body Hc] | [code v Hv]]; cbn.
  - reflexivity.
  - unfold raise_for_status. cbn. rewrite Hc. reflexivity.
  - unfold raise_for_status. cbn.
    destruct (is_success code); [|reflexivity]. cbn.
    destruct v as [| | | | |fields]; try reflexivity.
    cbn in Hv |- *. destruct (assoc "elements" fields); [discriminate|reflexivity].
Qed.

(** C6: [fetch_linkedin_posts] always returns and never raises; it returns
    the empty list when the access token or the author URN is absent, when
    the HTTP call fails (transport error or a status outside 200-299), and
    when the response has no ["elements"] field. *)
Theorem fetch_linkedin_posts_empty_never_raises access_token author_urn env st :
  (exists posts st', fetch_linkedin_posts access_token author_urn env st = (Return posts, st'))
  /\
  (truthy access_token = false \/ truthy_str author_urn = false ->
   fetch_linkedin_posts access_token author_urn env st = (Return [], st))
  /\
  (let answer := env (fetch_request access_token author_urn :: outbound st) in
   call_fails answer \/ lacks_elements answer ->
   fst (fetch_linkedin_posts access_token author_urn env st) = Return []).
Proof.
  split; [apply returns_fetch_linkedin_posts|].
  split; [apply fetch_without_session | apply fetch_on_bad_answer].
Qed.

Lemma fetch_linkedin_posts_witness :
  fst (fetch_linkedin_posts (JStr "tok") "urn:li:person:1"
         (fun _ => Response 200 (Some (JObj [("paging", JObj [])]))) (mkState [] []))
  = Return []
  /\
  fetch_linkedin_posts JNull "urn:li:person:1" (fun _ => ConnectError) (mkState [] [])
  = (Return [], mkState [] []).
Proof.
  split.
  - apply (proj2 (proj2 (fetch_linkedin_posts_empty_never_raises
                           (JStr "tok") "urn:li:person:1"
                           (fun _ => Response 200 (Some (JObj [("paging", JObj [])])))
                           (mkState [] [])))).
    right. constructor. reflexivity.
  - apply (proj1 (proj2 (fetch_linkedin_posts_empty_never_raises
                           JNull "urn:li:person:1" (fun _ => ConnectError)
                           (mkState [] [])))).
    left. reflexivity.
Defined.

(** A response with two posts, the second without text. *)
Example fetch_two_posts :
  fst (fetch_linkedin_posts (JStr "tok") "urn:li:person:1"
         (fun _ => Response 200 (Some (JObj [("elements", JArr
            [ JObj [("specificContent", JObj [("com.linkedin.ugc.ShareContent",
                       JObj [("shareCommentary", JObj [("text", JStr "hello")])])]);
                    ("created", JNum 5)];
              JObj [] ])])))
         (mkState [] []))
  = Return [ mkPost (JStr "hello") "You" (JNum 5);
             mkPost (JStr "No text available") "You" (JStr "Unknown Date") ].
Proof. reflexivity. Qed.

(** One element that is not a dictionary discards the whole list. *)
Example fetch_bad_element :
  fst (fetch_linkedin_posts (JStr "tok") "urn:li:person:1"
         (fun _ => Response 200 (Some (JObj [("elements", JArr [JObj []; JNum 1])])))
         (mkState [] []))
  = Return [].
Proof. reflexivity. Qed.

(** ** [GET /login] *)

Lemma provider_url_not_sentinel client_id redirect_uri :
  truthy_str (provider_url client_id redirect_uri) = true /\
  endswith (provider_url client_id redirect_uri) "/error" = false.
Proof.
  split; [reflexivity|].
  unfold provider_url. repeat rewrite <- append_assoc.
  rewrite endswith_app; [reflexivity | cbn; lia].
Qed.

(** With both values configured, [login] redirects to the provider's
    authorization URL. *)
Lemma login_redirects cfg env st :
  truthy_opt (LINKEDIN_CLIENT_ID cfg) = true ->
  truthy_opt (LINKEDIN_REDIRECT_URI cfg) = true ->
  login cfg env st
  = (Return (RedirectResponse
               (provider_url (str_of (LINKEDIN_CLIENT_ID cfg))
                  (str_of (LINKEDIN_REDIRECT_URI cfg))) 307), st).
Proof.
  intros H1 H2. unfold login. rewrite (auth_url_built cfg H1 H2).
  destruct (provider_url_not_sentinel (str_of (LINKEDIN_CLIENT_ID cfg))
              (str_of (LINKEDIN_REDIRECT_URI cfg))) as [-> ->].
  reflexivity.
Qed.

(** When the URL could not be built, [login] returns the exception object. *)
Lemma login_sentinel cfg env st :
  get_linkedin_auth_url cfg = "/error" ->
  login cfg env st
  = (Return (HTTPException 500 "Failed to generate LinkedIn auth URL."), st).
Proof. intros H. unfold login. rewrite H. reflexivity. Qed.

(** C8: with no client id configured, [login] builds an [HTTPException]
    with status code 500 and returns it instead of raising it, so the
    response that is served has status 200, not 500. *)
Theorem login_failure_is_returned_not_raised env st :
  let cfg := mkConfig None None (Some "http://localhost:8000/callback") in
  login cfg env st
  = (Return (HTTPException 500 "Failed to generate LinkedIn auth URL."), st)
  /\ http_status (fst (login cfg env st)) = 200.
Proof. split; reflexivity. Qed.

(** ** [GET /callback] *)

(** With [error] set, [callback] returns the exception object and touches
    neither the token store nor the provider, whatever [code] is. *)
Lemma callback_error cfg code error state env st :
  truthy_opt error = true ->
  callback cfg code error state env st
  = (Return (HTTPException 400 ("LinkedIn authorization failed: " ++ str_of error)), st).
Proof. intros H. unfold callback. rewrite H. reflexivity. Qed.

(** C1: with [error] set, [callback] leaves the token store as it was, but
    it builds an [HTTPException] with status code 400 and returns it instead
    of raising it, so the response that is served has status 200, not 400;
    this is so with and without [code]. *)
Theorem callback_error_is_returned_not_raised cfg code state env st :
  let outcome := callback cfg code (Some "access_denied") state env st in
  outcome
  = (Return (HTTPException 400 "LinkedIn authorization failed: access_denied"), st)
  /\ http_status (fst outcome) = 200.
Proof. split; reflexivity. Qed.

(** ** [POST /create_post] *)

(** The function [create_post] applied to an empty [post_content] renders
    the page with the error "Post content cannot be empty." and an empty list
    of posts, before it looks at the token store: the result is the same when
    the store is empty, and nothing is sent or stored. *)
Theorem create_post_empty_content cfg env st :
  let page :=
    TemplateResponse "index.html"
      [("request", CRequest); ("error", CStr "Post content cannot be empty.");
       ("posts", CPosts [])] in
  create_post cfg "" env st = (Return page, st)
  /\ create_post cfg "" env (mkState [] (outbound st)) = (Return page, mkState [] (outbound st)).
Proof. split; reflexivity. Qed.

(** C3: with a non-empty [post_content] and an empty token store,
    [create_post] redirects to "/login" and sends no request: the log of
    outbound requests is as it was. *)
Theorem create_post_unauthenticated cfg post_content env st :
  post_content <> "" ->
  user_tokens st = [] ->
  create_post cfg post_content env st = (Return (RedirectResponse "/login" 307), st)
  /\ outbound (snd (create_post cfg post_content env st)) = outbound st.
Proof.
  intros Hc Hs.
  assert (E : create_post cfg post_content env st
              = (Return (RedirectResponse "/login" 307), st)).
  { unfold create_post, truthy_str.
    apply String.eqb_neq in Hc. rewrite Hc. cbn [negb].
    unfold bind, tokens_nonempty, get_user_tokens, bind, ret. rewrite Hs. reflexivity. }
  rewrite E. split; reflexivity.
Qed.

Lemma create_post_unauthenticated_witness :
  create_post (mkConfig None None None) "hello" (fun _ => ConnectError) (mkState [] [])
  = (Return (RedirectResponse "/login" 307), mkState [] [])
  /\ outbound (snd (create_post (mkConfig None None None) "hello"
                      (fun _ => ConnectError) (mkState [] []))) = [].
Proof.
  apply (create_post_unauthenticated (mkConfig None None None) "hello"
           (fun _ => ConnectError) (mkState [] [])).
  - discriminate.
  - reflexivity.
Defined.

(** ** Computations that do not read the token store *)

Lemma blind_ret {A} (a : A) : store_blind (ret a).
Proof. intros env log. now exists (Return a), log. Qed.

Lemma blind_raise {A} (e : exn) : store_blind (@raise A e).
Proof. intros env log. now exists (Raise e), log. Qed.

Lemma blind_lift {A} (r : result A) : store_blind (lift r).
Proof. intros env log. now exists r, log. Qed.

Lemma blind_bind {A B} (m : M A) (k : A -> M B) :
  store_blind m -> (forall a, store_blind (k a)) -> store_blind (bind m k).
Proof.
  intros Hm Hk env log. destruct (Hm env log) as (r & log1 & E).
  destruct r as [a|e].
  - destruct (Hk a env log1) as (r2 & log2 & E2).
    exists r2, log2. intros tokens. unfold bind. now rewrite E, E2.
  - exists (Raise e), log1. intros tokens. unfold bind. now rewrite E.
Qed.

Lemma blind_try {A} (body : M A) (handler : exn -> M A) :
  store_blind body -> (forall e, store_blind (handler e)) ->
  store_blind (try_except body handler).
Proof.
  intros Hb Hh env log. destruct (Hb env log) as (r & log1 & E).
  destruct r as [a|e].
  - exists (Return a), log1. intros tokens. unfold try_except. now rewrite E.
  - destruct (Hh e env log1) as (r2 & log2 & E2).
    exists r2, log2. intros tokens. unfold try_except. now rewrite E, E2.
Qed.

Lemma blind_send (r : request) : store_blind (send r).
Proof.
  intros env log. unfold send. cbn [outbound user_tokens].
  destruct (env (r :: log)) as [|code body].
  - now exists (Raise RequestError), (r :: log).
  - now exists (Return (code, body)), (r :: log).
Qed.

Lemma blind_raise_for_status resp : store_blind (raise_for_status resp).
Proof. unfold raise_for_status. destruct (is_success _); [apply blind_ret | apply blind_raise]. Qed.

Lemma blind_response_json resp : store_blind (response_json resp).
Proof. unfold response_json. destruct (snd resp); [apply blind_ret | apply blind_raise]. Qed.

Create HintDb blind.
#[local] Hint Resolve blind_ret blind_raise blind_lift blind_send
  blind_raise_for_status blind_response_json : blind.

Ltac blind_step :=
  match goal with
  | |- store_blind (bind _ _) => apply blind_bind; [|intros]
  | |- store_blind (try_except _ _) => apply blind_try; [|intros]
  | |- store_blind (if ?b then _ else _) => destruct b
  | |- store_blind (match ?x with _ => _ end) => destruct x
  | |- store_blind _ => solve [auto with blind]
  end.

Ltac blind := repeat blind_step.

Lemma blind_format_posts items : store_blind (format_posts items).
Proof.
  induction items as [|p items IH]; cbn [format_posts]; [apply blind_ret|].
  apply blind_bind; [unfold format_post; blind|]. intros.
  apply blind_bind; [assumption|]. intros. apply blind_ret.
Qed.

Lemma blind_fetch_linkedin_posts access_token author_urn :
  store_blind (fetch_linkedin_posts access_token author_urn).
Proof. unfold fetch_linkedin_posts. pose proof blind_format_posts. blind. Qed.

Lemma blind_create_linkedin_post access_token author_urn post_content :
  store_blind (create_linkedin_post access_token author_urn post_content).
Proof. unfold create_linkedin_post. blind. Qed.

#[local] Hint Resolve blind_fetch_linkedin_posts blind_create_linkedin_post : blind.

Lemma blind_posts_page_with fallback token_info :
  store_blind (posts_page_with fallback token_info).
Proof. unfold posts_page_with. blind. Qed.

Lemma blind_create_post_with token_info post_content :
  store_blind (create_post_with token_info post_content).
Proof. unfold create_post_with. blind. Qed.

(** ** The session a route reads *)

Lemma key_eqb_refl (k : key) : key_eqb k k = true.
Proof.
  destruct k as [|b|z|s]; simpl.
  - reflexivity.
  - apply Bool.eqb_reflx.
  - apply Z.eqb_refl.
  - apply String.eqb_refl.
Qed.

Lemma read_root_session cfg env st k ti rest :
  user_tokens st = (k, ti) :: rest ->
  read_root cfg env st = posts_page_with (login_page cfg) ti env st.
Proof.
  intros H. unfold read_root, posts_page_with, login_page.
  unfold bind at 1. unfold tokens_nonempty. unfold bind at 1.
  unfold get_user_tokens at 1. rewrite H. cbn [ret negb].
  unfold bind at 1. unfold first_user_id. unfold bind at 1.
  unfold get_user_tokens at 1. rewrite H. cbn [ret].
  unfold bind at 1. unfold tokens_getitem. unfold bind at 1.
  unfold get_user_tokens at 1. rewrite H. cbn [dict_getitem].
  rewrite key_eqb_refl. cbn [ret]. reflexivity.
Qed.

Lemma refresh_posts_route_session cfg env st k ti rest :
  user_tokens st = (k, ti) :: rest ->
  refresh_posts_route cfg env st
  = posts_page_with (RedirectResponse "/login" 307) ti env st.
Proof.
  intros H. unfold refresh_posts_route, posts_page_with.
  unfold bind at 1. unfold tokens_nonempty. unfold bind at 1.
  unfold get_user_tokens at 1. rewrite H. cbn [ret negb].
  unfold bind at 1. unfold first_user_id. unfold bind at 1.
  unfold get_user_tokens at 1. rewrite H. cbn [ret].
  unfold bind at 1. unfold tokens_getitem. unfold bind at 1.
  unfold get_user_tokens at 1. rewrite H. cbn [dict_getitem].
  rewrite key_eqb_refl. cbn [ret]. reflexivity.
Qed.

Lemma create_post_session cfg post_content env st k ti rest :
  post_content <> "" ->
  user_tokens st = (k, ti) :: rest ->
  create_post cfg post_content env st = create_post_with ti post_content env st.
Proof.
  intros Hc H. unfold create_post, create_post_with, truthy_str.
  apply String.eqb_neq in Hc. rewrite Hc. cbn [negb].
  unfold bind at 1. unfold tokens_nonempty. unfold bind at 1.
  unfold get_user_tokens at 1. rewrite H. cbn [ret negb].
  unfold bind at 1. unfold first_user_id. unfold bind at 1.
  unfold get_user_tokens at 1. rewrite H. cbn [ret].
  unfold bind at 1. unfold tokens_getitem. unfold bind at 1.
  unfold get_user_tokens at 1. rewrite H. cbn [dict_getitem].
  rewrite key_eqb_refl. cbn [ret]. reflexivity.
Qed.

(** ** What the helpers send *)

Lemma silent_ret {A} (a : A) : silent (ret a).
Proof. intros env st. reflexivity. Qed.

Lemma silent_raise {A} (e : exn) : silent (@raise A e).
Proof. intros env st. reflexivity. Qed.

Lemma silent_lift {A} (r : result A) : silent (lift r).
Proof. intros env st. reflexivity. Qed.

Lemma silent_bind {A B} (m : M A) (k : A -> M B) :
  silent m -> (forall a, silent (k a)) -> silent (bind m k).
Proof.
  intros Hm Hk env st. unfold bind. specialize (Hm env st).
  destruct (m env st) as [[a|e] st1]; simpl in *; subst.
  - apply Hk.
  - reflexivity.
Qed.

Lemma silent_raise_for_status resp : silent (raise_for_status resp).
Proof. unfold raise_for_status. destruct (is_success _); [apply silent_ret | apply silent_raise]. Qed.

Lemma silent_response_json resp : silent (response_json resp).
Proof. unfold response_json. destruct (snd resp); [apply silent_ret | apply silent_raise]. Qed.

Create HintDb silent.
#[local] Hint Resolve silent_ret silent_raise silent_lift
  silent_raise_for_status silent_response_json : silent.

Ltac silent_step :=
  match goal with
  | |- silent (bind _ _) => apply silent_bind; [|intros]
  | |- silent (if ?b then _ else _) => destruct b
  | |- silent (match ?x with _ => _ end) => destruct x
  | |- silent _ => solve [auto with silent]
  end.

Ltac silent := repeat silent_step.

Lemma silent_format_posts items : silent (format_posts items).
Proof.
  induction items as [|p items IH]; cbn [format_posts]; [apply silent_ret|].
  apply silent_bind; [unfold format_post; silent|]. intros.
  apply silent_bind; [assumption|]. intros. apply silent_ret.
Qed.

(** A call wrapped in [try]/[except] whose only effect is to send [r]. *)
Lemma sends_once {A} (r : request) (k : Z * option json -> M A) (default : A) env st :
  (forall resp, silent (k resp)) ->
  snd (try_except (bind (send r) k) (fun _ => ret default) env st) = sent r st.
Proof.
  intros Hk. unfold try_except, bind, send. fold (sent r st).
  destruct (env (r :: outbound st)) as [|code body]; [reflexivity|].
  specialize (Hk (code, body) env (sent r st)).
  destruct (k (code, body) env (sent r st)) as [[a|e] st1]; simpl in *; now subst.
Qed.

Lemma fetch_linkedin_posts_sends access_token author_urn env st :
  truthy access_token = true -> truthy_str author_urn = true ->
  snd (fetch_linkedin_posts access_token author_urn env st)
  = sent (fetch_request access_token author_urn) st.
Proof.
  intros H1 H2. unfold fetch_linkedin_posts. rewrite H1, H2. cbn [negb orb].
  apply sends_once. intros resp. pose proof silent_format_posts. silent.
Qed.

Lemma create_linkedin_post_sends access_token author_urn post_content env st :
  truthy access_token = true -> truthy_str author_urn = true ->
  snd (create_linkedin_post access_token author_urn post_content env st)
  = sent (create_request access_token author_urn post_content) st.
Proof.
  intros H1 H2. unfold create_linkedin_post. rewrite H1, H2. cbn [negb orb].
  apply sends_once. intros resp. silent.
Qed.

(** ** [POST /create_post] with a session *)

(** C4: with a non-empty [post_content] and a first session whose access
    token and author URN are both present, [create_post] sends the create
    request; when [create_linkedin_post] returns a truthy result the response
    is a redirect to "/" with status 303; when it returns a falsy result
    ([None] on failure) the posts are fetched again, after the create
    request, and the response is the page with the error "Failed to create
    post." and those posts. *)
Theorem create_post_redirects_or_rerenders cfg post_content env st k ti rest created st1 :
  post_content <> "" ->
  user_tokens st = (k, ti) :: rest ->
  truthy (access_token ti) = true ->
  truthy_str (author_urn ti) = true ->
  create_linkedin_post (access_token ti) (author_urn ti) post_content env st
  = (Return created, st1) ->
  st1 = sent (create_request (access_token ti) (author_urn ti) post_content) st
  /\
  (truthy created = true ->
   create_post cfg post_content env st = (Return (RedirectResponse "/" 303), st1))
  /\
  (truthy created = false ->
   exists posts,
     fetch_linkedin_posts (access_token ti) (author_urn ti) env st1
     = (Return posts, sent (fetch_request (access_token ti) (author_urn ti)) st1)
     /\
     create_post cfg post_content env st
     = (Return (TemplateResponse "index.html"
                  [("request", CRequest); ("error", CStr "Failed to create post.");
                   ("posts", CPosts posts)]),
        sent (fetch_request (access_token ti) (author_urn ti)) st1)).
Proof.
  intros Hc Hs Ht Hu Hcreate.
  assert (E : create_post cfg post_content env st
              = bind (ret created)
                  (fun post_created =>
                     if truthy post_created then ret (RedirectResponse "/" 303)
                     else
                       posts <- fetch_linkedin_posts (access_token ti) (author_urn ti) ;;
                       ret (TemplateResponse "index.html"
                              [("request", CRequest); ("error", CStr "Failed to create post.");
                               ("posts", CPosts posts)])) env st1).
  { rewrite (create_post_session cfg post_content env st k ti rest Hc Hs).
    unfold create_post_with. rewrite Ht, Hu. cbn [negb orb].
    unfold bind at 1. rewrite Hcreate. reflexivity. }
  split.
  - pose proof (create_linkedin_post_sends (access_token ti) (author_urn ti)
                  post_content env st Ht Hu) as Hsent.
    rewrite Hcreate in Hsent. exact Hsent.
  - split; intros Htruth; rewrite E; unfold bind at 1; cbn [ret]; rewrite Htruth.
    + reflexivity.
    + destruct (returns_fetch_linkedin_posts (access_token ti) (author_urn ti) env st1)
        as (posts & st2 & Hfetch).
      pose proof (fetch_linkedin_posts_sends (access_token ti) (author_urn ti)
                    env st1 Ht Hu) as Hsent.
      rewrite Hfetch in Hsent. cbn [snd] in Hsent. subst st2.
      exists posts. split; [exact Hfetch|].
      unfold bind. rewrite Hfetch. reflexivity.
Qed.

(** ** Which session the routes use *)

Lemma snd_bind_ret {A B} (m : M A) (f : A -> B) env st :
  snd (bind m (fun a => ret (f a)) env st) = snd (m env st).
Proof. unfold bind. now destruct (m env st) as [[a|e] st1]. Qed.

Lemma posts_page_with_sends fallback ti env st :
  truthy (access_token ti) = true -> truthy_str (author_urn ti) = true ->
  snd (posts_page_with fallback ti env st)
  = sent (fetch_request (access_token ti) (author_urn ti)) st.
Proof.
  intros Ht Hu. unfold posts_page_with. rewrite Ht, Hu. cbn [negb orb].
  rewrite snd_bind_ret. now apply fetch_linkedin_posts_sends.
Qed.

Lemma create_post_with_sends ti post_content env st :
  truthy (access_token ti) = true -> truthy_str (author_urn ti) = true ->
  exists more,
    outbound (snd (create_post_with ti post_content env st))
    = (more ++ create_request (access_token ti) (author_urn ti) post_content
            :: outbound st)%list.
Proof.
  intros Ht Hu. unfold create_post_with. rewrite Ht, Hu. cbn [negb orb].
  pose proof (create_linkedin_post_sends (access_token ti) (author_urn ti)
                post_content env st Ht Hu) as Hsent.
  unfold bind at 1.
  destruct (create_linkedin_post _ _ _ env st) as [[created|e] st1];
    cbn [snd] in Hsent; subst st1.
  - destruct (truthy created).
    + now exists [].
    + rewrite snd_bind_ret, fetch_linkedin_posts_sends by assumption.
      now exists [fetch_request (access_token ti) (author_urn ti)].
  - now exists [].
Qed.

(** C7: with a non-empty token store, the outcome of [GET /], of
    [POST /create_post] and of [GET /refresh_posts] is fixed by the record
    of the first entry alone, whatever its key and however many entries
    follow it; and when that record holds a token and a URN, the requests
    the three routes send carry that token (and, for the create request,
    that URN). *)
Theorem routes_use_first_session cfg post_content env ti log :
  (exists r log', forall k rest,
      read_root cfg env (mkState ((k, ti) :: rest) log)
      = (r, mkState ((k, ti) :: rest) log'))
  /\
  (exists r log', forall k rest,
      create_post cfg post_content env (mkState ((k, ti) :: rest) log)
      = (r, mkState ((k, ti) :: rest) log'))
  /\
  (exists r log', forall k rest,
      refresh_posts_route cfg env (mkState ((k, ti) :: rest) log)
      = (r, mkState ((k, ti) :: rest) log'))
  /\
  (truthy (access_token ti) = true -> truthy_str (author_urn ti) = true ->
   forall k rest,
     let st := mkState ((k, ti) :: rest) log in
     outbound (snd (read_root cfg env st))
     = fetch_request (access_token ti) (author_urn ti) :: log
     /\
     outbound (snd (refresh_posts_route cfg env st))
     = fetch_request (access_token ti) (author_urn ti) :: log
     /\
     (post_content <> "" ->
      exists more,
        outbound (snd (create_post cfg post_content env st))
        = (more ++ create_request (access_token ti) (author_urn ti) post_content
                :: log)%list)).
Proof.
  split; [|split; [|split]].
  - destruct (blind_posts_page_with (login_page cfg) ti env log) as (r & log' & E).
    exists r, log'. intros k rest.
    rewrite (read_root_session cfg env (mkState ((k, ti) :: rest) log) k ti rest eq_refl).
    apply E.
  - destruct (String.eqb_spec post_content "") as [->|Hc].
    + eexists. exists log. intros k rest. reflexivity.
    + destruct (blind_create_post_with ti post_content env log) as (r & log' & E).
      exists r, log'. intros k rest.
      rewrite (create_post_session cfg post_content env
                 (mkState ((k, ti) :: rest) log) k ti rest Hc eq_refl).
      apply E.
  - destruct (blind_posts_page_with (RedirectResponse "/login" 307) ti env log)
      as (r & log' & E).
    exists r, log'. intros k rest.
    rewrite (refresh_posts_route_session cfg env
               (mkState ((k, ti) :: rest) log) k ti rest eq_refl).
    apply E.
  - intros Ht Hu k rest st.
    rewrite (read_root_session cfg env st k ti rest eq_refl).
    rewrite (refresh_posts_route_session cfg env st k ti rest eq_refl).
    rewrite !posts_page_with_sends by assumption.
    split; [reflexivity|]. split; [reflexivity|].
    intros Hc. rewrite (create_post_session cfg post_content env st k ti rest Hc eq_refl).
    now apply create_post_with_sends.
Qed.

Lemma create_post_redirects_or_rerenders_witness :
  create_post sample_config "hello" (sample_provider true)
    (mkState [(KStr "123", sample_session)] [])
  = (Return (RedirectResponse "/" 303),
     sent (create_request (JStr "tok") "urn:li:person:123" "hello")
       (mkState [(KStr "123", sample_session)] []))
  /\
  fst (create_post sample_config "hello" (sample_provider false)
         (mkState [(KStr "123", sample_session)] []))
  = Return (TemplateResponse "index.html"
              [("request", CRequest); ("error", CStr "Failed to create post.");
               ("posts", CPosts [mkPost (JStr "hello") "You" (JNum 1700000000000)])]).
Proof.
  split.
  - apply (proj1 (proj2 (create_post_redirects_or_rerenders
                           sample_config "hello" (sample_provider true)
                           (mkState [(KStr "123", sample_session)] [])
                           (KStr "123") sample_session []
                           (JObj [("id", JStr "urn:li:share:1")])
                           (sent (create_request (JStr "tok") "urn:li:person:123" "hello")
                              (mkState [(KStr "123", sample_session)] []))
                           ltac:(discriminate) eq_refl eq_refl eq_refl eq_refl))).
    reflexivity.
  - destruct (proj2 (proj2 (create_post_redirects_or_rerenders
                              sample_config "hello" (sample_provider false)
                              (mkState [(KStr "123", sample_session)] [])
                              (KStr "123") sample_session []
                              JNull
                              (sent (create_request (JStr "tok") "urn:li:person:123" "hello")
                                 (mkState [(KStr "123", sample_session)] []))
                              ltac:(discriminate) eq_refl eq_refl eq_refl eq_refl))
                eq_refl) as (posts & Hfetch & Hpage).
    rewrite Hpage. cbn [fst]. inversion Hfetch. reflexivity.
Defined.

Lemma routes_use_first_session_witness :
  outbound (snd (read_root sample_config (sample_provider true)
                   (mkState [(KStr "123", sample_session);
                             (KStr "456", mkTokenInfo (JStr "tok2") "urn:li:person:456")] [])))
  = [fetch_request (JStr "tok") "urn:li:person:123"].
Proof.
  apply (proj2 (proj2 (proj2 (routes_use_first_session
                                sample_config "hello" (sample_provider true)
                                sample_session []))) eq_refl eq_refl (KStr "123")
           [(KStr "456", mkTokenInfo (JStr "tok2") "urn:li:person:456")]).
Defined.

(** ** The token store *)

Lemma keeps_at {A} (m : M A) env st r st' :
  keeps_tokens m -> m env st = (r, st') -> user_tokens st' = user_tokens st.
Proof. intros H E. specialize (H env st). now rewrite E in H. Qed.

Lemma dict_getitem_setitem_same d k v : dict_getitem (dict_setitem d k v) k = Some v.
Proof.
  induction d as [|[k' v'] d IH]; cbn [dict_setitem dict_getitem].
  - now rewrite key_eqb_refl.
  - destruct (key_eqb k' k) eqn:E; cbn [dict_getitem]; rewrite E; [reflexivity | exact IH].
Qed.

Lemma key_eqb_norm a b : key_eqb a b = true <-> key_norm a = key_norm b.
Proof.
  destruct a as [|x|z|s], b as [|y|w|t]; cbn; split; intros H;
    try discriminate; try reflexivity.
  - destruct x, y; try discriminate; reflexivity.
  - destruct x, y; try discriminate; reflexivity.
  - apply Z.eqb_eq in H. now subst.
  - inversion H. apply Z.eqb_refl.
  - apply Z.eqb_eq in H. now subst.
  - inversion H. apply Z.eqb_refl.
  - apply Z.eqb_eq in H. now subst.
  - inversion H. apply Z.eqb_refl.
  - apply String.eqb_eq in H. now subst.
  - inversion H. apply String.eqb_refl.
Qed.

Lemma key_eqb_trans_false a b c :
  key_eqb a b = true -> key_eqb c b = false -> key_eqb a c = false.
Proof.
  intros H1 H2. destruct (key_eqb a c) eqn:E; [|reflexivity].
  apply key_eqb_norm in H1, E.
  assert (key_eqb c b = true) by (apply key_eqb_norm; congruence).
  congruence.
Qed.

(** Assigning to [k] leaves the entry of every other key as it was. *)
Lemma dict_getitem_setitem_other d k v k' :
  key_eqb k' k = false -> dict_getitem (dict_setitem d k v) k' = dict_getitem d k'.
Proof.
  intros H. induction d as [|[k0 v0] d IH]; cbn [dict_setitem dict_getitem].
  - destruct (key_eqb k k') eqn:E; [|reflexivity].
    apply key_eqb_norm in E.
    assert (key_eqb k' k = true) by (apply key_eqb_norm; congruence). congruence.
  - destruct (key_eqb k0 k) eqn:E; cbn [dict_getitem].
    + now rewrite (key_eqb_trans_false k0 k k' E H).
    + destruct (key_eqb k0 k'); [reflexivity | exact IH].
Qed.

(** Assigning to a key never moves the first entry of a non-empty store:
    the user who authenticated first stays the one the routes read. *)
Lemma dict_setitem_first_key d k v k0 v0 :
  exists v1 d', dict_setitem ((k0, v0) :: d) k v = (k0, v1) :: d'.
Proof.
  cbn [dict_setitem]. destruct (key_eqb k0 k); eexists; eexists; reflexivity.
Qed.

(** ** [GET /callback] with a code *)

Lemma missing_silent k v env st r st' :
  missing k v env st = (r, st') -> st' = st.
Proof.
  unfold missing. destruct (negb (truthy v)).
  - intros E. now inversion E.
  - unfold bind, lift. destruct (py_in k v) as [b|e]; intros E; now inversion E.
Qed.

Lemma missing_object k fields x env st :
  assoc k fields = Some x -> missing k (JObj fields) env st = (Return false, st).
Proof.
  intros H. unfold missing.
  assert (T : truthy (JObj fields) = true) by (destruct fields; [discriminate | reflexivity]).
  rewrite T. cbn [negb]. unfold bind, lift, py_in, ret. now rewrite H.
Qed.

(** The path of [callback] through lines 281-306 when nothing fails. *)
Lemma callback_success cfg code error state env st token_data tok st1 profile_data st2 uid k :
  truthy_opt error = false ->
  truthy_opt code = true ->
  get_linkedin_access_token cfg (str_of code) env st = (Return token_data, st1) ->
  missing "access_token" token_data env st1 = (Return false, st1) ->
  py_getitem token_data "access_token" = Return tok ->
  get_linkedin_profile tok env st1 = (Return profile_data, st2) ->
  missing "id" profile_data env st2 = (Return false, st2) ->
  py_getitem profile_data "id" = Return uid ->
  hashable uid = Some k ->
  callback cfg code error state env st
  = (Return (RedirectResponse "/" 307), stored st2 k tok).
Proof.
  intros He Hc Htok Hm1 Hget Hprof Hm2 Hid Hk.
  unfold callback. rewrite He, Hc. cbn [negb].
  unfold bind at 1. rewrite Htok.
  unfold bind at 1.
  change (if negb (truthy token_data) then ret true
          else present <- lift (py_in "access_token" token_data) ;; ret (negb present))
    with (missing "access_token" token_data).
  rewrite Hm1.
  unfold bind at 1. unfold lift at 1. rewrite Hget.
  unfold bind at 1. rewrite Hprof.
  unfold bind at 1.
  change (if negb (truthy profile_data) then ret true
          else present <- lift (py_in "id" profile_data) ;; ret (negb present))
    with (missing "id" profile_data).
  rewrite Hm2.
  unfold bind at 1. unfold lift at 1. rewrite Hid, Hk.
  reflexivity.
Qed.

Ltac stop H :=
  intros H; inversion H; subst; left; split; [congruence | discriminate].

(** Every run of [callback] either leaves the token store alone and does
    not answer with the redirect to "/", or is the path of
    [callback_success]. *)
Lemma callback_cases cfg code error state env st r st' :
  callback cfg code error state env st = (r, st') ->
  (user_tokens st' = user_tokens st /\ r <> Return (RedirectResponse "/" 307))
  \/
  (exists token_data tok st1 profile_data st2 uid k,
      get_linkedin_access_token cfg (str_of code) env st = (Return token_data, st1)
      /\ py_getitem token_data "access_token" = Return tok
      /\ get_linkedin_profile tok env st1 = (Return profile_data, st2)
      /\ py_getitem profile_data "id" = Return uid
      /\ hashable uid = Some k
      /\ user_tokens st2 = user_tokens st
      /\ r = Return (RedirectResponse "/" 307)
      /\ st' = stored st2 k tok).
Proof.
  unfold callback.
  destruct (truthy_opt error); [stop E|].
  destruct (truthy_opt code); cbn [negb]; [|stop E].
  unfold bind at 1.
  destruct (get_linkedin_access_token cfg (str_of code) env st)
    as [[token_data|e] st1] eqn:Htok;
    pose proof (keeps_at _ _ _ _ _ (keeps_get_linkedin_access_token cfg (str_of code)) Htok)
      as K1; [|stop E].
  unfold bind at 1.
  change (if negb (truthy token_data) then ret true
          else present <- lift (py_in "access_token" token_data) ;; ret (negb present))
    with (missing "access_token" token_data).
  destruct (missing "access_token" token_data env st1) as [[[|]|e] st1'] eqn:Hm1;
    apply missing_silent in Hm1; subst st1'; [stop E| |stop E].
  unfold bind at 1. unfold lift at 1.
  destruct (py_getitem token_data "access_token") as [tok|e] eqn:Hget; [|stop E].
  unfold bind at 1.
  destruct (get_linkedin_profile tok env st1) as [[profile_data|e] st2] eqn:Hprof;
    pose proof (keeps_at _ _ _ _ _ (keeps_get_linkedin_profile tok) Hprof) as K2;
    [|stop E].
  unfold bind at 1.
  change (if negb (truthy profile_data) then ret true
          else present <- lift (py_in "id" profile_data) ;; ret (negb present))
    with (missing "id" profile_data).
  destruct (missing "id" profile_data env st2) as [[[|]|e] st2'] eqn:Hm2;
    apply missing_silent in Hm2; subst st2'; [stop E| |stop E].
  unfold bind at 1. unfold lift at 1.
  destruct (py_getitem profile_data "id") as [uid|e] eqn:Hid; [|stop E].
  destruct (hashable uid) as [k|] eqn:Hk; [|stop E].
  intros E. cbn in E. inversion E; subst. right.
  exists token_data, tok, st1, profile_data, st2, uid, k.
  repeat split; try assumption; try reflexivity. congruence.
Qed.

(** C2: for a callback with a code and no error, when the token exchange
    returns a payload that holds "access_token" and the profile fetch returns
    a profile whose id is "123", the response is a redirect to "/" and the
    token store then maps "123" to the record with the exchanged access token
    and the author URN "urn:li:person:123". *)
Theorem callback_stores_session cfg code error state env st
    token_fields tok st1 profile_fields st2 :
  truthy_opt code = true ->
  truthy_opt error = false ->
  get_linkedin_access_token cfg (str_of code) env st = (Return (JObj token_fields), st1) ->
  assoc "access_token" token_fields = Some tok ->
  get_linkedin_profile tok env st1 = (Return (JObj profile_fields), st2) ->
  assoc "id" profile_fields = Some (JStr "123") ->
  exists st',
    callback cfg code error state env st = (Return (RedirectResponse "/" 307), st')
    /\ dict_getitem (user_tokens st') (KStr "123")
       = Some (mkTokenInfo tok "urn:li:person:123")
    /\ user_tokens st'
       = dict_setitem (user_tokens st) (KStr "123") (mkTokenInfo tok "urn:li:person:123").
Proof.
  intros Hc He Htok Ha Hprof Hi.
  exists (stored st2 (KStr "123") tok). split; [|split].
  - apply (callback_success cfg code error state env st (JObj token_fields) tok st1
             (JObj profile_fields) st2 (JStr "123") (KStr "123")); try assumption.
    + now apply (missing_object "access_token" token_fields tok).
    + cbn [py_getitem]. now rewrite Ha.
    + now apply (missing_object "id" profile_fields (JStr "123")).
    + cbn [py_getitem]. now rewrite Hi.
    + reflexivity.
  - apply dict_getitem_setitem_same.
  - cbn [stored user_tokens key_str].
    rewrite (keeps_at _ _ _ _ _ (keeps_get_linkedin_profile tok) Hprof).
    rewrite (keeps_at _ _ _ _ _ (keeps_get_linkedin_access_token cfg (str_of code)) Htok).
    reflexivity.
Qed.

Lemma callback_stores_session_witness :
  exists st',
    callback sample_config (Some "code") None (Some "some_random_string_to_prevent_csrf")
      (sample_provider true) (mkState [] [])
    = (Return (RedirectResponse "/" 307), st')
    /\ dict_getitem (user_tokens st') (KStr "123")
       = Some (mkTokenInfo (JStr "tok") "urn:li:person:123")
    /\ user_tokens st'
       = dict_setitem [] (KStr "123") (mkTokenInfo (JStr "tok") "urn:li:person:123").
Proof.
  apply (callback_stores_session sample_config (Some "code") None
           (Some "some_random_string_to_prevent_csrf") (sample_provider true)
           (mkState [] [])
           [("access_token", JStr "tok"); ("expires_in", JNum 5184000)] (JStr "tok")
           (sent (token_request sample_config "code") (mkState [] []))
           [("id", JStr "123")]
           (sent (profile_request (JStr "tok"))
              (sent (token_request sample_config "code") (mkState [] [])))
           eq_refl eq_refl eq_refl eq_refl eq_refl eq_refl).
Defined.

(** C10: [GET /], [GET /login], [POST /create_post] and [GET /refresh_posts]
    leave the token store as it was, whatever they return; and a run of
    [callback] either leaves it as it was, or answers with the redirect to
    "/" after it has assigned one entry, keyed by the id of the profile
    fetched with the exchanged token, so that the entry of every other key
    is unchanged. *)
Theorem only_callback_writes cfg code error state post_content env st :
  user_tokens (snd (read_root cfg env st)) = user_tokens st
  /\ user_tokens (snd (login cfg env st)) = user_tokens st
  /\ user_tokens (snd (create_post cfg post_content env st)) = user_tokens st
  /\ user_tokens (snd (refresh_posts_route cfg env st)) = user_tokens st
  /\
  forall r st',
    callback cfg code error state env st = (r, st') ->
    (r <> Return (RedirectResponse "/" 307) /\ user_tokens st' = user_tokens st)
    \/
    (r = Return (RedirectResponse "/" 307) /\
     exists token_data tok st1 profile_data st2 uid k,
       get_linkedin_access_token cfg (str_of code) env st = (Return token_data, st1)
       /\ py_getitem token_data "access_token" = Return tok
       /\ get_linkedin_profile tok env st1 = (Return profile_data, st2)
       /\ py_getitem profile_data "id" = Return uid
       /\ hashable uid = Some k
       /\ user_tokens st'
          = dict_setitem (user_tokens st) k
              (mkTokenInfo tok ("urn:li:person:" ++ key_str k))
       /\ forall k', key_eqb k' k = false ->
                     dict_getitem (user_tokens st') k' = dict_getitem (user_tokens st) k').
Proof.
  split; [apply keeps_read_root|].
  split; [apply keeps_login|].
  split; [apply keeps_create_post|].
  split; [apply keeps_refresh_posts_route|].
  intros r st' E.
  destruct (callback_cases cfg code error state env st r st' E)
    as [[Hs Hr] | (token_data & tok & st1 & profile_data & st2 & uid & k
                   & Htok & Hget & Hprof & Hid & Hk & Hs & Hr & Hst)].
  - left. now split.
  - right. split; [exact Hr|].
    exists token_data, tok, st1, profile_data, st2, uid, k.
    assert (Hw : user_tokens st'
                 = dict_setitem (user_tokens st) k
                     (mkTokenInfo tok ("urn:li:person:" ++ key_str k))).
    { subst st'. cbn [stored user_tokens]. now rewrite Hs. }
    repeat split; try assumption.
    intros k' Hk'. rewrite Hw. now apply dict_getitem_setitem_other.
Qed.

Lemma only_callback_writes_witness :
  dict_getitem
    (user_tokens (snd (callback sample_config (Some "code") None None (sample_provider true)
                         (mkState [(KStr "456", mkTokenInfo (JStr "tok2") "urn:li:person:456")]
                            []))))
    (KStr "456")
  = Some (mkTokenInfo (JStr "tok2") "urn:li:person:456").
Proof.
  destruct (proj2 (proj2 (proj2 (proj2
              (only_callback_writes sample_config (Some "code") None None "hello"
                 (sample_provider true)
                 (mkState [(KStr "456", mkTokenInfo (JStr "tok2") "urn:li:person:456")] [])))))
              _ _ eq_refl) as [[Hr _] | [_ _]].
  - exfalso. apply Hr. reflexivity.
  - reflexivity.
Defined.

(** * Further properties *)

(** ** URL encoding *)

Lemma hex_digit_safe n : (n < 16)%nat -> Urllib.always_safe (Urllib.hex_digit n) = true.
Proof.
  intros H.
  do 16 (destruct n as [|n]; [reflexivity|]). lia.
Qed.

Lemma quote_byte_safe c :
  forallb query_safe (list_ascii_of_string (Urllib.quote_byte c)) = true.
Proof.
  unfold Urllib.quote_byte.
  destruct (Urllib.always_safe c) eqn:E.
  - cbn. unfold query_safe. now rewrite E.
  - destruct (Ascii.eqb c " "); [reflexivity|].
    cbn [list_ascii_of_string forallb].
    unfold query_safe at 1. cbn [Ascii.eqb].
    unfold query_safe.
    rewrite !hex_digit_safe; [reflexivity | |].
    + apply Nat.mod_upper_bound. discriminate.
    + apply Nat.Div0.div_lt_upper_bound.
      pose proof (nat_ascii_bounded c). lia.
Qed.

Lemma list_ascii_of_string_app a b :
  list_ascii_of_string (a ++ b) = (list_ascii_of_string a ++ list_ascii_of_string b)%list.
Proof. induction a as [|c a IH]; cbn; [reflexivity | now rewrite IH]. Qed.

(** X1: whatever the text, [quote_plus] produces only letters, digits,
    [_ . - ~], [+] and [%]; so no byte of an encoded value is an ampersand,
    an equals sign, a space, a hash or a question mark, and a client id or a
    redirect URI cannot add or cut a parameter of the authorization URL. *)
Theorem quote_plus_query_safe (s : string) :
  forallb query_safe (list_ascii_of_string (Urllib.quote_plus s)) = true
  /\ forall c, In c (list_ascii_of_string (Urllib.quote_plus s)) ->
               c <> "&"%char /\ c <> "="%char /\ c <> " "%char
               /\ c <> "#"%char /\ c <> "?"%char.
Proof.
  assert (H : forallb query_safe (list_ascii_of_string (Urllib.quote_plus s)) = true).
  { induction s as [|c s IH]; [reflexivity|].
    cbn [Urllib.quote_plus]. rewrite list_ascii_of_string_app, forallb_app.
    now rewrite quote_byte_safe, IH. }
  split; [exact H|].
  intros c Hin. rewrite forallb_forall in H. specialize (H c Hin).
  repeat split; intros ->; discriminate H.
Qed.

Lemma quote_plus_query_safe_witness :
  "%"%char <> "&"%char /\ "%"%char <> "="%char /\ "%"%char <> " "%char
  /\ "%"%char <> "#"%char /\ "%"%char <> "?"%char.
Proof.
  apply (proj2 (quote_plus_query_safe "&") "%"%char).
  left. reflexivity.
Defined.

Example quote_plus_example : Urllib.quote_plus "a&b=c d/~" = "a%26b%3Dc+d%2F~".
Proof. reflexivity. Qed.

(** ** Counting the requests *)

Lemma sends_quiet (P : request -> Prop) (n : nat) {A} (m : M A) :
  (forall env st, outbound (snd (m env st)) = outbound st) -> sends_upto P n m.
Proof.
  intros H env st. exists []. rewrite H. repeat split; [cbn; lia | constructor].
Qed.

Lemma sends_silent (P : request -> Prop) (n : nat) {A} (m : M A) :
  silent m -> sends_upto P n m.
Proof. intros H. apply sends_quiet. intros env st. now rewrite H. Qed.

Lemma sends_send (P : request -> Prop) (n : nat) (r : request) :
  P r -> sends_upto P (S n) (send r).
Proof.
  intros H env st. exists [r]. unfold send.
  destruct (env (r :: outbound st)); cbn; repeat split; try lia; now constructor.
Qed.

Lemma sends_bind (P : request -> Prop) (a b : nat) {A B} (m : M A) (k : A -> M B) :
  sends_upto P a m -> (forall x, sends_upto P b (k x)) -> sends_upto P (a + b) (bind m k).
Proof.
  intros Hm Hk env st. destruct (Hm env st) as (new1 & E1 & L1 & F1).
  unfold bind. destruct (m env st) as [[x|e] st1]; cbn [snd] in *.
  - destruct (Hk x env st1) as (new2 & E2 & L2 & F2).
    exists (new2 ++ new1)%list. rewrite E2, E1, app_assoc, length_app.
    repeat split; [lia | now apply Forall_app].
  - exists new1. repeat split; [assumption | lia | assumption].
Qed.

Lemma sends_try (P : request -> Prop) (a b : nat) {A} (body : M A) (handler : exn -> M A) :
  sends_upto P a body -> (forall e, sends_upto P b (handler e)) ->
  sends_upto P (a + b) (try_except body handler).
Proof.
  intros Hb Hh env st. destruct (Hb env st) as (new1 & E1 & L1 & F1).
  unfold try_except. destruct (body env st) as [[x|e] st1]; cbn [snd] in *.
  - exists new1. repeat split; [assumption | lia | assumption].
  - destruct (Hh e env st1) as (new2 & E2 & L2 & F2).
    exists (new2 ++ new1)%list. rewrite E2, E1, app_assoc, length_app.
    repeat split; [lia | now apply Forall_app].
Qed.

Lemma sends_weaken (P : request -> Prop) (a b : nat) {A} (m : M A) :
  (a <= b)%nat -> sends_upto P a m -> sends_upto P b m.
Proof.
  intros H Hm env st. destruct (Hm env st) as (new & E & L & F).
  exists new. repeat split; [assumption | lia | assumption].
Qed.

(** One call in [try]/[except]: the request, then work that sends nothing. *)
Lemma sends_call (P : request -> Prop) {A} (r : request)
    (k : Z * option json -> M A) (handler : exn -> M A) :
  P r -> (forall resp, silent (k resp)) -> (forall e, silent (handler e)) ->
  sends_upto P 1 (try_except (bind (send r) k) handler).
Proof.
  intros Hr Hk Hh.
  apply (sends_try P 1 0).
  - apply (sends_bind P 1 0); [now apply sends_send|].
    intros resp. now apply sends_silent.
  - intros e. now apply sends_silent.
Qed.

Lemma silent_get_user_tokens : silent get_user_tokens.
Proof. intros env st. reflexivity. Qed.

#[local] Hint Resolve silent_get_user_tokens : silent.

Lemma silent_tokens_nonempty : silent tokens_nonempty.
Proof. unfold tokens_nonempty. silent. Qed.

Lemma silent_first_user_id : silent first_user_id.
Proof. unfold first_user_id. silent. Qed.

Lemma silent_tokens_getitem k : silent (tokens_getitem k).
Proof. unfold tokens_getitem. silent. Qed.

Lemma silent_missing k v : silent (missing k v).
Proof. unfold missing. silent. Qed.

#[local] Hint Resolve silent_tokens_nonempty silent_first_user_id silent_tokens_getitem
  silent_missing silent_format_posts : silent.

Lemma linkedin_token cfg code : linkedin_endpoint (token_request cfg code).
Proof. unfold linkedin_endpoint. cbn. auto. Qed.

Lemma linkedin_profile tok : linkedin_endpoint (profile_request tok).
Proof. unfold linkedin_endpoint. cbn. auto. Qed.

Lemma linkedin_fetch tok urn : linkedin_endpoint (fetch_request tok urn).
Proof. unfold linkedin_endpoint. cbn. auto. Qed.

Lemma linkedin_create tok urn content : linkedin_endpoint (create_request tok urn content).
Proof. unfold linkedin_endpoint. cbn. auto 6. Qed.

Lemma sends_fetch_linkedin_posts tok urn :
  sends_upto linkedin_endpoint 1 (fetch_linkedin_posts tok urn).
Proof.
  unfold fetch_linkedin_posts. destruct (_ || _)%bool.
  - apply sends_silent, silent_ret.
  - apply sends_call; [apply linkedin_fetch | intros; silent | intros; silent].
Qed.

Lemma sends_create_linkedin_post tok urn content :
  sends_upto linkedin_endpoint 1 (create_linkedin_post tok urn content).
Proof.
  unfold create_linkedin_post. destruct (_ || _)%bool.
  - apply sends_silent, silent_ret.
  - apply sends_call; [apply linkedin_create | intros; silent | intros; silent].
Qed.

Lemma sends_get_linkedin_access_token cfg code :
  sends_upto linkedin_endpoint 1 (get_linkedin_access_token cfg code).
Proof.
  unfold get_linkedin_access_token. destruct (_ || _)%bool.
  - apply sends_silent, silent_ret.
  - apply sends_call; [apply linkedin_token | intros; silent | intros; silent].
Qed.

Lemma sends_get_linkedin_profile tok :
  sends_upto linkedin_endpoint 1 (get_linkedin_profile tok).
Proof.
  unfold get_linkedin_profile. destruct (negb _).
  - apply sends_silent, silent_ret.
  - apply sends_call; [apply linkedin_profile | intros; silent | intros; silent].
Qed.

Lemma sends_posts_page_with fallback ti :
  sends_upto linkedin_endpoint 1 (posts_page_with fallback ti).
Proof.
  unfold posts_page_with. destruct (_ || _)%bool.
  - apply sends_silent, silent_ret.
  - apply (sends_bind _ 1 0); [apply sends_fetch_linkedin_posts|].
    intros. apply sends_silent, silent_ret.
Qed.

Lemma sends_read_root cfg : sends_upto linkedin_endpoint 1 (read_root cfg).
Proof.
  unfold read_root.
  apply (sends_bind _ 0 1); [apply sends_silent, silent_tokens_nonempty|].
  intros b. destruct (negb b); [apply sends_silent, silent_ret|].
  apply (sends_bind _ 0 1); [apply sends_silent, silent_first_user_id|]. intros k.
  apply (sends_bind _ 0 1); [apply sends_silent, silent_tokens_getitem|]. intros ti.
  apply (sends_posts_page_with (login_page cfg) ti).
Qed.

Lemma sends_refresh_posts_route cfg :
  sends_upto linkedin_endpoint 1 (refresh_posts_route cfg).
Proof.
  unfold refresh_posts_route.
  apply (sends_bind _ 0 1); [apply sends_silent, silent_tokens_nonempty|].
  intros b. destruct (negb b); [apply sends_silent, silent_ret|].
  apply (sends_bind _ 0 1); [apply sends_silent, silent_first_user_id|]. intros k.
  apply (sends_bind _ 0 1); [apply sends_silent, silent_tokens_getitem|]. intros ti.
  apply (sends_posts_page_with (RedirectResponse "/login" 307) ti).
Qed.

Lemma sends_create_post cfg content :
  sends_upto linkedin_endpoint 2 (create_post cfg content).
Proof.
  unfold create_post. destruct (negb (truthy_str content)); [apply sends_silent, silent_ret|].
  apply (sends_bind _ 0 2); [apply sends_silent, silent_tokens_nonempty|].
  intros b. destruct (negb b); [apply sends_silent, silent_ret|].
  apply (sends_bind _ 0 2); [apply sends_silent, silent_first_user_id|]. intros k.
  apply (sends_bind _ 0 2); [apply sends_silent, silent_tokens_getitem|]. intros ti.
  destruct (_ || _)%bool; [apply sends_silent, silent_ret|].
  apply (sends_bind _ 1 1); [apply sends_create_linkedin_post|].
  intros created. destruct (truthy created); [apply sends_silent, silent_ret|].
  apply (sends_bind _ 1 0); [apply sends_fetch_linkedin_posts|].
  intros. apply sends_silent, silent_ret.
Qed.

Lemma sends_login cfg : sends_upto linkedin_endpoint 0 (login cfg).
Proof. apply sends_silent. unfold login. silent. Qed.

Lemma sends_tokens_setitem k v : sends_upto linkedin_endpoint 0 (tokens_setitem k v).
Proof. apply sends_quiet. reflexivity. Qed.

Lemma sends_callback cfg code error state :
  sends_upto linkedin_endpoint 2 (callback cfg code error state).
Proof.
  unfold callback.
  destruct (truthy_opt error); [apply sends_silent, silent_ret|].
  destruct (negb (truthy_opt code)); [apply sends_silent, silent_ret|].
  apply (sends_bind _ 1 1); [apply sends_get_linkedin_access_token|]. intros token_data.
  apply (sends_bind _ 0 1); [apply sends_silent; silent|]. intros no_token.
  destruct no_token; [apply sends_silent, silent_ret|].
  apply (sends_bind _ 0 1); [apply sends_silent, silent_lift|]. intros tok.
  apply (sends_bind _ 1 0); [apply sends_get_linkedin_profile|]. intros profile_data.
  apply (sends_bind _ 0 0); [apply sends_silent; silent|]. intros no_profile.
  destruct no_profile; [apply sends_silent, silent_ret|].
  apply (sends_bind _ 0 0); [apply sends_silent, silent_lift|]. intros uid.
  destruct (hashable uid); [|apply sends_silent, silent_raise].
  apply (sends_bind _ 0 0); [apply sends_tokens_setitem|].
  intros. apply sends_silent, silent_ret.
Qed.

(** Wrapping the outcome of a route changes nothing of the state. *)
Lemma routed_state (route : M response) env st :
  snd (routed route env st) = snd (route env st).
Proof. unfold routed, bind. now destruct (route env st) as [[r|e] st1]. Qed.

Lemma sends_routed (P : request -> Prop) (n : nat) (route : M response) :
  sends_upto P n route -> sends_upto P n (routed route).
Proof. intros H env st. rewrite routed_state. apply H. Qed.

(** X2: no route retries a call or calls anything but LinkedIn: [GET /] and
    [GET /refresh_posts] send at most one request, [POST /create_post] and
    [GET /callback] at most two, [GET /login] none; the requests sent before
    stay in the log, and every new request goes to one of the four LinkedIn
    endpoints. *)
Theorem routes_send_few_requests (cfg : config) (c : route_call) :
  let budget :=
    match c with
    | GetRoot | GetRefreshPosts => 1%nat
    | PostCreatePost _ | GetCallback _ _ _ => 2%nat
    | GetLogin => 0%nat
    end in
  forall env st, exists new,
    outbound (snd (serve cfg c env st)) = (new ++ outbound st)%list
    /\ (List.length new <= budget)%nat
    /\ Forall linkedin_endpoint new.
Proof.
  destruct c as [| |code error callback_state|post_content|]; cbn [serve].
  - apply sends_routed, sends_read_root.
  - apply sends_routed, sends_login.
  - apply sends_routed, sends_callback.
  - destruct (truthy_str post_content).
    + apply sends_routed, sends_create_post.
    + apply sends_silent, silent_ret.
  - apply sends_routed, sends_refresh_posts_route.
Qed.

(** ** The outcomes of [GET /callback] *)

Lemma returns_get_linkedin_access_token cfg code :
  returns (get_linkedin_access_token cfg code).
Proof.
  unfold get_linkedin_access_token. destruct (_ || _)%bool.
  - apply returns_ret.
  - apply returns_try. intros e. apply returns_ret.
Qed.

Lemma returns_get_linkedin_profile tok : returns (get_linkedin_profile tok).
Proof.
  unfold get_linkedin_profile. destruct (negb _).
  - apply returns_ret.
  - apply returns_try. intros e. apply returns_ret.
Qed.

(** The membership test raises nothing but [TypeError]. *)
Lemma missing_outcomes k v env st :
  missing k v env st = (Return true, st)
  \/ (missing k v env st = (Return false, st)
      /\ (py_getitem v k = Raise TypeError \/ exists x, py_getitem v k = Return x))
  \/ missing k v env st = (Raise TypeError, st).
Proof.
  unfold missing. destruct v as [|b|z|s|l|fields]; cbn.
  - now left.
  - destruct b; cbn; auto.
  - destruct (z =? 0); cbn; auto.
  - destruct (s =? "")%string; cbn; [now left|].
    unfold bind, lift, py_in, ret. destruct (is_substring k s); cbn; auto.
  - destruct l as [|x l]; [now left|].
    unfold bind, lift, py_in, ret. destruct (existsb (is_str k) (x :: l)); cbn; auto.
  - destruct fields as [|f fields]; [now left|].
    unfold bind, lift, py_in, ret, py_getitem.
    destruct (assoc k (f :: fields)) as [x|]; cbn; [|now left].
    right. left. split; [reflexivity|]. right. now exists x.
Qed.

Lemma callback_outcomes_of_run cfg code error state env st r st' :
  callback cfg code error state env st = (r, st') ->
  r = Return (HTTPException 400 ("LinkedIn authorization failed: " ++ str_of error))
  \/ r = Return (HTTPException 400 "No authorization code received.")
  \/ r = Return (HTTPException 500 "Failed to retrieve access token from LinkedIn.")
  \/ r = Return (HTTPException 500 "Failed to retrieve user profile from LinkedIn.")
  \/ r = Return (RedirectResponse "/" 307)
  \/ r = Raise TypeError.
Proof.
  unfold callback.
  destruct (truthy_opt error); [intros E; inversion E; auto 8|].
  destruct (negb (truthy_opt code)); [intros E; inversion E; auto 8|].
  unfold bind at 1.
  destruct (returns_get_linkedin_access_token cfg (str_of code) env st)
    as (token_data & st1 & ->).
  unfold bind at 1.
  change (if negb (truthy token_data) then ret true
          else present <- lift (py_in "access_token" token_data) ;; ret (negb present))
    with (missing "access_token" token_data).
  destruct (missing_outcomes "access_token" token_data env st1)
    as [-> | [[-> Hget] | ->]];
    [intros E; inversion E; auto 8 | | intros E; inversion E; auto 8].
  unfold bind at 1. unfold lift at 1.
  destruct Hget as [-> | [tok ->]]; [intros E; inversion E; auto 8|].
  unfold bind at 1.
  destruct (returns_get_linkedin_profile tok env st1) as (profile_data & st2 & ->).
  unfold bind at 1.
  change (if negb (truthy profile_data) then ret true
          else present <- lift (py_in "id" profile_data) ;; ret (negb present))
    with (missing "id" profile_data).
  destruct (missing_outcomes "id" profile_data env st2)
    as [-> | [[-> Hid] | ->]];
    [intros E; inversion E; auto 8 | | intros E; inversion E; auto 8].
  unfold bind at 1. unfold lift at 1.
  destruct Hid as [-> | [uid ->]]; [intros E; inversion E; auto 8|].
  destruct (hashable uid); intros E; cbn in E; inversion E; auto 8.
Qed.

(** X4: [callback] has six outcomes and no other: one of its four
    [HTTPException] objects (each returned, so served with status 200), the
    redirect to "/", or a [TypeError] that escapes (served as 500).  No
    other exception can escape, and no run is served with status 400. *)
Theorem callback_outcomes cfg code error state env st :
  let r := fst (callback cfg code error state env st) in
  (r = Return (HTTPException 400 ("LinkedIn authorization failed: " ++ str_of error))
   \/ r = Return (HTTPException 400 "No authorization code received.")
   \/ r = Return (HTTPException 500 "Failed to retrieve access token from LinkedIn.")
   \/ r = Return (HTTPException 500 "Failed to retrieve user profile from LinkedIn.")
   \/ r = Return (RedirectResponse "/" 307)
   \/ r = Raise TypeError)
  /\ (http_status r = 200 \/ http_status r = 307 \/ http_status r = 500).
Proof.
  intros r.
  pose proof (callback_outcomes_of_run cfg code error state env st r
                (snd (callback cfg code error state env st))
                (surjective_pairing _)) as H.
  split; [exact H|].
  destruct H as [-> | [-> | [-> | [-> | [-> | ->]]]]]; cbn; auto.
Qed.

(** ** The calls to the provider, answer by answer *)

(** The shape shared by the token exchange and the create call: send,
    check the status, parse, return; [None] on any exception. *)
Lemma plain_call (r : request) env st :
  try_except
    (response <- send r ;;
     raise_for_status response ;;;
     v <- response_json response ;;
     ret v)
    (fun _ => ret JNull) env st
  = (Return (match parsed_body (env (r :: outbound st)) with
             | Some v => v
             | None => JNull
             end), sent r st).
Proof.
  unfold try_except, bind, send. fold (sent r st).
  destruct (env (r :: outbound st)) as [|code body]; [reflexivity|].
  unfold raise_for_status, response_json, parsed_body. cbn [fst snd].
  destruct (is_success code), body as [v|]; reflexivity.
Qed.

(** X5: [create_linkedin_post] returns the parsed body exactly when the
    provider answers the create request with a status in 200-299 and a JSON
    body, and [None] on every other answer; with a token and a URN it sends
    that one request, without one of them it sends nothing. *)
Theorem create_linkedin_post_result tok urn content env st :
  (truthy tok = false \/ truthy_str urn = false ->
   create_linkedin_post tok urn content env st = (Return JNull, st))
  /\
  (truthy tok = true -> truthy_str urn = true ->
   create_linkedin_post tok urn content env st
   = (Return (match parsed_body (env (create_request tok urn content :: outbound st)) with
              | Some v => v
              | None => JNull
              end),
      sent (create_request tok urn content) st)).
Proof.
  split.
  - intros H. unfold create_linkedin_post.
    replace (negb (truthy tok) || negb (truthy_str urn))%bool with true; [reflexivity|].
    destruct H as [-> | ->]; [reflexivity | now rewrite orb_true_r].
  - intros Ht Hu. unfold create_linkedin_post. rewrite Ht, Hu. cbn [negb orb].
    apply plain_call.
Qed.

Lemma create_linkedin_post_result_witness :
  create_linkedin_post JNull "urn:li:person:123" "hello" no_provider initial_state
  = (Return JNull, initial_state)
  /\
  create_linkedin_post (JStr "tok") "urn:li:person:123" "hello" (sample_provider true)
    initial_state
  = (Return (JObj [("id", JStr "urn:li:share:1")]),
     sent (create_request (JStr "tok") "urn:li:person:123" "hello") initial_state).
Proof.
  split.
  - apply (proj1 (create_linkedin_post_result JNull "urn:li:person:123" "hello"
                    no_provider initial_state)).
    left. reflexivity.
  - apply (proj2 (create_linkedin_post_result (JStr "tok") "urn:li:person:123" "hello"
                    (sample_provider true) initial_state)); reflexivity.
Defined.

(** X6: [get_linkedin_access_token] contacts the provider only when the
    client id, the client secret and the redirect URI are all configured;
    then it sends the token request once and returns the parsed body when
    the answer has a status in 200-299 and a JSON body, [None] otherwise. *)
Theorem get_linkedin_access_token_result cfg code env st :
  (absent (LINKEDIN_CLIENT_ID cfg) \/ absent (LINKEDIN_CLIENT_SECRET cfg)
   \/ absent (LINKEDIN_REDIRECT_URI cfg) ->
   get_linkedin_access_token cfg code env st = (Return JNull, st))
  /\
  (~ absent (LINKEDIN_CLIENT_ID cfg) -> ~ absent (LINKEDIN_CLIENT_SECRET cfg) ->
   ~ absent (LINKEDIN_REDIRECT_URI cfg) ->
   get_linkedin_access_token cfg code env st
   = (Return (match parsed_body (env (token_request cfg code :: outbound st)) with
              | Some v => v
              | None => JNull
              end),
      sent (token_request cfg code) st)).
Proof.
  split.
  - intros H. unfold get_linkedin_access_token.
    replace (negb (truthy_opt (LINKEDIN_CLIENT_ID cfg))
             || negb (truthy_opt (LINKEDIN_CLIENT_SECRET cfg))
             || negb (truthy_opt (LINKEDIN_REDIRECT_URI cfg)))%bool with true; [reflexivity|].
    destruct H as [H | [H | H]]; apply absent_truthy in H; rewrite H; cbn [negb orb];
      rewrite ?orb_true_r; reflexivity.
  - intros H1 H2 H3.
    destruct (present_truthy _ H1) as (_ & _ & _ & T1).
    destruct (present_truthy _ H2) as (_ & _ & _ & T2).
    destruct (present_truthy _ H3) as (_ & _ & _ & T3).
    unfold get_linkedin_access_token. rewrite T1, T2, T3. cbn [negb orb].
    apply plain_call.
Qed.

Lemma get_linkedin_access_token_result_witness :
  get_linkedin_access_token (mkConfig (Some "client") None (Some "http://x/callback"))
    "code" (sample_provider true) initial_state
  = (Return JNull, initial_state)
  /\
  get_linkedin_access_token sample_config "code" (sample_provider true) initial_state
  = (Return (JObj [("access_token", JStr "tok"); ("expires_in", JNum 5184000)]),
     sent (token_request sample_config "code") initial_state).
Proof.
  split.
  - apply (proj1 (get_linkedin_access_token_result
                    (mkConfig (Some "client") None (Some "http://x/callback"))
                    "code" (sample_provider true) initial_state)).
    right. left. left. reflexivity.
  - apply (proj2 (get_linkedin_access_token_result sample_config "code"
                    (sample_provider true) initial_state));
      intros [H|H]; discriminate H.
Defined.

(** X7: [get_linkedin_profile] returns a dictionary or [None], never a
    list, a string, a number or a boolean: a JSON body that is not an object
    makes the logging of line 142 raise inside the [try]; and it returns
    [None] without a request when the access token is missing. *)
Theorem get_linkedin_profile_dict_or_none tok env st :
  (exists st', get_linkedin_profile tok env st = (Return JNull, st')
               \/ exists fields, get_linkedin_profile tok env st = (Return (JObj fields), st'))
  /\ (truthy tok = false -> get_linkedin_profile tok env st = (Return JNull, st))
  /\ (truthy tok = true ->
      forall code fields,
        env (profile_request tok :: outbound st) = Response code (Some (JObj fields)) ->
        is_success code = true ->
        get_linkedin_profile tok env st
        = (Return (JObj fields), sent (profile_request tok) st)).
Proof.
  split; [|split].
  - unfold get_linkedin_profile. destruct (negb (truthy tok)).
    + exists st. now left.
    + exists (sent (profile_request tok) st).
      unfold try_except, bind, send. fold (sent (profile_request tok) st).
      destruct (env (profile_request tok :: outbound st)) as [|code body]; [now left|].
      unfold raise_for_status, response_json. cbn [fst snd].
      destruct (is_success code); [|now left].
      destruct body as [v|]; [|now left].
      destruct v as [| | | | |fields]; try (now left).
      right. exists fields. cbn. now destruct (assoc "id" fields).
  - intros H. unfold get_linkedin_profile. now rewrite H.
  - intros H code fields Henv Hcode. unfold get_linkedin_profile. rewrite H. cbn [negb].
    unfold try_except, bind, send. fold (sent (profile_request tok) st).
    rewrite Henv. unfold raise_for_status, response_json. cbn [fst snd]. rewrite Hcode.
    cbn. now destruct (assoc "id" fields).
Qed.

Lemma get_linkedin_profile_dict_or_none_witness :
  get_linkedin_profile JNull (sample_provider true) initial_state
  = (Return JNull, initial_state)
  /\
  get_linkedin_profile (JStr "tok") (sample_provider true) initial_state
  = (Return (JObj [("id", JStr "123")]),
     sent (profile_request (JStr "tok")) initial_state).
Proof.
  split.
  - apply (proj1 (proj2 (get_linkedin_profile_dict_or_none JNull (sample_provider true)
                           initial_state))).
    reflexivity.
  - apply (proj2 (proj2 (get_linkedin_profile_dict_or_none (JStr "tok")
                           (sample_provider true) initial_state))
             eq_refl 200 [("id", JStr "123")]); reflexivity.
Defined.

(** ** The failing paths of [GET /callback] *)

(** The head of [callback] once [error] is empty and [code] is not. *)
Lemma callback_after_exchange cfg code error state env st token_data st1 :
  truthy_opt error = false ->
  truthy_opt code = true ->
  get_linkedin_access_token cfg (str_of code) env st = (Return token_data, st1) ->
  callback cfg code error state env st
  = bind (missing "access_token" token_data)
      (fun no_token : bool =>
         if no_token then
           ret (HTTPException 500 "Failed to retrieve access token from LinkedIn.")
         else
           access_token <- lift (py_getitem token_data "access_token") ;;
           profile_data <- get_linkedin_profile access_token ;;
           no_profile <- missing "id" profile_data ;;
           if (no_profile : bool) then
             ret (HTTPException 500 "Failed to retrieve user profile from LinkedIn.")
           else
             user_id <- lift (py_getitem profile_data "id") ;;
             match hashable user_id with
             | None => raise TypeError
             | Some user_key =>
                 let author_urn := "urn:li:person:" ++ key_str user_key in
                 tokens_setitem user_key (mkTokenInfo access_token author_urn) ;;;
                 ret (RedirectResponse "/" 307)
             end) env st1.
Proof.
  intros He Hc Htok. unfold callback. rewrite He, Hc. cbn [negb].
  unfold bind at 1. rewrite Htok. reflexivity.
Qed.

Lemma missing_falsy k v env st :
  truthy v = false -> missing k v env st = (Return true, st).
Proof. intros H. unfold missing. now rewrite H. Qed.

Lemma missing_no_key k fields env st :
  assoc k fields = None -> missing k (JObj fields) env st = (Return true, st).
Proof.
  intros H. unfold missing. destruct fields as [|f fields]; [reflexivity|].
  cbn [truthy negb]. unfold bind, lift, py_in, ret. now rewrite H.
Qed.

(** X8: the three ways [callback] gives up after an empty [error]: without
    a code it returns the 400 object at once; when the token exchange gives
    a falsy payload or a dictionary without "access_token" it returns the
    500 object "Failed to retrieve access token from LinkedIn." and never
    asks for the profile; when the profile fetch gives [None] or a
    dictionary without "id" it returns the 500 object "Failed to retrieve
    user profile from LinkedIn.".  In each case the token store is as
    before. *)
Theorem callback_gives_up cfg code error state env st :
  truthy_opt error = false ->
  (truthy_opt code = false ->
   callback cfg code error state env st
   = (Return (HTTPException 400 "No authorization code received."), st))
  /\
  (truthy_opt code = true ->
   forall token_data st1,
     get_linkedin_access_token cfg (str_of code) env st = (Return token_data, st1) ->
     truthy token_data = false
     \/ (exists fields, token_data = JObj fields /\ assoc "access_token" fields = None) ->
     callback cfg code error state env st
     = (Return (HTTPException 500 "Failed to retrieve access token from LinkedIn."), st1)
     /\ user_tokens st1 = user_tokens st)
  /\
  (truthy_opt code = true ->
   forall token_fields tok st1 profile_data st2,
     get_linkedin_access_token cfg (str_of code) env st
     = (Return (JObj token_fields), st1) ->
     assoc "access_token" token_fields = Some tok ->
     get_linkedin_profile tok env st1 = (Return profile_data, st2) ->
     profile_data = JNull
     \/ (exists fields, profile_data = JObj fields /\ assoc "id" fields = None) ->
     callback cfg code error state env st
     = (Return (HTTPException 500 "Failed to retrieve user profile from LinkedIn."), st2)
     /\ user_tokens st2 = user_tokens st).
Proof.
  intros He. split; [|split].
  - intros Hc. unfold callback. now rewrite He, Hc.
  - intros Hc token_data st1 Htok Hbad.
    split; [|exact (keeps_at _ _ _ _ _ (keeps_get_linkedin_access_token cfg (str_of code)) Htok)].
    rewrite (callback_after_exchange cfg code error state env st token_data st1 He Hc Htok).
    unfold bind at 1.
    destruct Hbad as [Hf | (fields & -> & Hnone)].
    + now rewrite (missing_falsy _ _ _ _ Hf).
    + now rewrite (missing_no_key _ _ _ _ Hnone).
  - intros Hc token_fields tok st1 profile_data st2 Htok Ha Hprof Hbad.
    split.
    + rewrite (callback_after_exchange cfg code error state env st _ st1 He Hc Htok).
      unfold bind at 1. rewrite (missing_object _ _ _ _ _ Ha).
      unfold bind at 1. unfold lift at 1. cbn [py_getitem]. rewrite Ha.
      unfold bind at 1. rewrite Hprof.
      unfold bind at 1.
      destruct Hbad as [-> | (fields & -> & Hnone)].
      * reflexivity.
      * now rewrite (missing_no_key _ _ _ _ Hnone).
    + rewrite (keeps_at _ _ _ _ _ (keeps_get_linkedin_profile tok) Hprof).
      exact (keeps_at _ _ _ _ _ (keeps_get_linkedin_access_token cfg (str_of code)) Htok).
Qed.

Lemma callback_gives_up_witness :
  callback sample_config None None None no_provider initial_state
  = (Return (HTTPException 400 "No authorization code received."), initial_state)
  /\
  callback sample_config (Some "code") None None no_provider initial_state
  = (Return (HTTPException 500 "Failed to retrieve access token from LinkedIn."),
     sent (token_request sample_config "code") initial_state).
Proof.
  split.
  - apply (proj1 (callback_gives_up sample_config None None None no_provider
                    initial_state eq_refl)).
    reflexivity.
  - apply (proj1 (proj2 (callback_gives_up sample_config (Some "code") None None
                           no_provider initial_state eq_refl))
             eq_refl JNull (sent (token_request sample_config "code") initial_state)
             eq_refl).
    left. reflexivity.
Defined.

Lemma odd_payload_raises v env st :
  odd_payload "access_token" v = true ->
  missing "access_token" v env st = (Raise TypeError, st)
  \/ (missing "access_token" v env st = (Return false, st)
      /\ py_getitem v "access_token" = Raise TypeError).
Proof.
  intros H. destruct v as [|b|z|s|l|fields]; try discriminate H; cbn in H.
  - subst b. now left.
  - unfold missing. cbn [truthy]. rewrite H. now left.
  - assert (T : truthy (JStr s) = true) by (destruct s; [discriminate H | reflexivity]).
    unfold missing. rewrite T. cbn [negb].
    unfold bind, lift, py_in. rewrite H. right; now split.
  - assert (T : truthy (JArr l) = true) by (destruct l; [discriminate H | reflexivity]).
    unfold missing. rewrite T. cbn [negb].
    unfold bind, lift, py_in. rewrite H. right; now split.
Qed.

(** X9: two payloads make [callback] raise a [TypeError] that nothing
    catches (the request is served as 500), with the token store left as it
    was: a token payload that is truthy but not a dictionary and passes or
    breaks the test ["access_token" in token_data] (a list holding that
    string, a string containing it, [True], a number other than zero), and a
    profile whose "id" is a list or a dictionary. *)
Theorem callback_raises_type_error cfg code error state env st :
  truthy_opt error = false ->
  truthy_opt code = true ->
  (forall token_data st1,
     get_linkedin_access_token cfg (str_of code) env st = (Return token_data, st1) ->
     odd_payload "access_token" token_data = true ->
     callback cfg code error state env st = (Raise TypeError, st1)
     /\ user_tokens st1 = user_tokens st)
  /\
  (forall token_fields tok st1 profile_fields uid st2,
     get_linkedin_access_token cfg (str_of code) env st
     = (Return (JObj token_fields), st1) ->
     assoc "access_token" token_fields = Some tok ->
     get_linkedin_profile tok env st1 = (Return (JObj profile_fields), st2) ->
     assoc "id" profile_fields = Some uid ->
     hashable uid = None ->
     callback cfg code error state env st = (Raise TypeError, st2)
     /\ user_tokens st2 = user_tokens st).
Proof.
  intros He Hc. split.
  - intros token_data st1 Htok Hodd.
    split; [|exact (keeps_at _ _ _ _ _ (keeps_get_linkedin_access_token cfg (str_of code)) Htok)].
    rewrite (callback_after_exchange cfg code error state env st token_data st1 He Hc Htok).
    destruct (odd_payload_raises token_data env st1 Hodd) as [Hm | [Hm Hget]].
    + unfold bind at 1. now rewrite Hm.
    + unfold bind at 1. rewrite Hm. unfold bind at 1. unfold lift at 1. now rewrite Hget.
  - intros token_fields tok st1 profile_fields uid st2 Htok Ha Hprof Hid Hk.
    split.
    + rewrite (callback_after_exchange cfg code error state env st _ st1 He Hc Htok).
      unfold bind at 1. rewrite (missing_object _ _ _ _ _ Ha).
      unfold bind at 1. unfold lift at 1. cbn [py_getitem]. rewrite Ha.
      unfold bind at 1. rewrite Hprof.
      unfold bind at 1. rewrite (missing_object _ _ _ _ _ Hid).
      unfold bind at 1. unfold lift at 1. cbn [py_getitem]. rewrite Hid, Hk.
      reflexivity.
    + rewrite (keeps_at _ _ _ _ _ (keeps_get_linkedin_profile tok) Hprof).
      exact (keeps_at _ _ _ _ _ (keeps_get_linkedin_access_token cfg (str_of code)) Htok).
Qed.

Lemma callback_raises_type_error_witness :
  callback sample_config (Some "code") None None odd_provider initial_state
  = (Raise TypeError, sent (token_request sample_config "code") initial_state).
Proof.
  apply (proj1 (callback_raises_type_error sample_config (Some "code") None None
                  odd_provider initial_state eq_refl eq_refl)
           (JArr [JStr "access_token"])
           (sent (token_request sample_config "code") initial_state)
           eq_refl eq_refl).
Defined.

(** ** [fetch_linkedin_posts], answer by answer *)

(** X10: the author URN never reaches the provider.  Both braces of the
    URL template are doubled, so [format] (line 198) finds no field to fill:
    for every URN it gives the fixed text ".../ugcPosts?author={author_urn}",
    which is the URL of the fetch request; two calls with different
    (non-empty) URNs therefore send the same request and have the same
    result. *)
Theorem fetch_linkedin_posts_ignores_author_urn tok urn1 urn2 env st :
  urn1 <> "" -> urn2 <> "" ->
  str_format LINKEDIN_POSTS_URL_TEMPLATE [("author_urn", urn1)]
  = Formatted (req_url (fetch_request tok urn1))
  /\ str_format LINKEDIN_POSTS_URL_TEMPLATE [("author_urn", urn1)]
     = Formatted "https://api.linkedin.com/v2/ugcPosts?author={author_urn}"
  /\ fetch_linkedin_posts tok urn1 env st = fetch_linkedin_posts tok urn2 env st.
Proof.
  intros H1 H2. split; [reflexivity|]. split; [reflexivity|].
  unfold fetch_linkedin_posts, truthy_str.
  apply String.eqb_neq in H1, H2. rewrite H1, H2. reflexivity.
Qed.

Lemma fetch_linkedin_posts_ignores_author_urn_witness :
  str_format LINKEDIN_POSTS_URL_TEMPLATE [("author_urn", "urn:li:person:123")]
  = Formatted (req_url (fetch_request (JStr "tok") "urn:li:person:123"))
  /\ str_format LINKEDIN_POSTS_URL_TEMPLATE [("author_urn", "urn:li:person:123")]
     = Formatted "https://api.linkedin.com/v2/ugcPosts?author={author_urn}"
  /\ fetch_linkedin_posts (JStr "tok") "urn:li:person:123" (sample_provider true)
       initial_state
     = fetch_linkedin_posts (JStr "tok") "urn:li:person:456" (sample_provider true)
         initial_state.
Proof.
  apply (fetch_linkedin_posts_ignores_author_urn (JStr "tok") "urn:li:person:123"
           "urn:li:person:456" (sample_provider true) initial_state); discriminate.
Defined.

(** With single braces the same call does fill in the URN; a name that is
    not passed raises, and so does a single brace. *)
Example str_format_single_braces :
  str_format "https://api.linkedin.com/v2/ugcPosts?author={author_urn}"
    [("author_urn", "urn:li:person:123")]
  = Formatted "https://api.linkedin.com/v2/ugcPosts?author=urn:li:person:123"
  /\ str_format "author={author}" [("author_urn", "urn:li:person:123")]
     = FormatRaises FormatKeyError
  /\ str_format "author={}" [("author_urn", "urn:li:person:123")]
     = FormatRaises FormatIndexError
  /\ str_format "author=}" [("author_urn", "urn:li:person:123")]
     = FormatRaises FormatValueError
  /\ str_format "{{{author_urn}}}" [("author_urn", "x")] = Formatted "{x}".
Proof. repeat split; reflexivity. Qed.

Lemma format_post_view p env st :
  match view_post p with
  | Some v => format_post p env st = (Return v, st)
  | None => exists e, format_post p env st = (Raise e, st)
  end.
Proof.
  unfold view_post, format_post, bind, lift.
  destruct (py_get p "specificContent" (JObj [])) as [specific|e]; [|now exists e].
  destruct (py_get specific "com.linkedin.ugc.ShareContent" (JObj [])) as [share|e];
    [|now exists e].
  destruct (py_get share "shareCommentary" (JObj [])) as [commentary|e]; [|now exists e].
  destruct (py_get commentary "text" (JStr "No text available")) as [post_text|e];
    [|now exists e].
  destruct (py_get p "created" (JStr "Unknown Date")) as [created|e]; [|now exists e].
  reflexivity.
Qed.

Lemma format_posts_view items env st :
  match view_posts items with
  | Some vs => format_posts items env st = (Return vs, st)
  | None => exists e, format_posts items env st = (Raise e, st)
  end.
Proof.
  induction items as [|p items IH]; [reflexivity|].
  cbn [view_posts].
  change (format_posts (p :: items))
    with (formatted <- format_post p ;; rest <- format_posts items ;; ret (formatted :: rest)).
  pose proof (format_post_view p env st) as Hp.
  destruct (view_post p) as [v|].
  - destruct (view_posts items) as [vs|].
    + unfold bind at 1. rewrite Hp. unfold bind at 1. now rewrite IH.
    + destruct IH as [e IH]. exists e.
      unfold bind at 1. rewrite Hp. unfold bind at 1. now rewrite IH.
  - destruct Hp as [e Hp]. exists e. unfold bind at 1. now rewrite Hp.
Qed.

Lemma view_post_dict p v : view_post p = Some v -> exists fields, p = JObj fields.
Proof.
  destruct p as [| | | | |fields]; try discriminate. intros _. now exists fields.
Qed.

Lemma view_post_author p v : view_post p = Some v -> author_name v = "You".
Proof.
  unfold view_post.
  destruct (py_get p "specificContent" (JObj [])) as [specific|]; [|discriminate].
  destruct (py_get specific "com.linkedin.ugc.ShareContent" (JObj [])) as [share|];
    [|discriminate].
  destruct (py_get share "shareCommentary" (JObj [])) as [commentary|]; [|discriminate].
  destruct (py_get commentary "text" (JStr "No text available")); [|discriminate].
  destruct (py_get p "created" (JStr "Unknown Date")); [|discriminate].
  intros E. now inversion E.
Qed.

Lemma view_posts_shape items vs :
  view_posts items = Some vs ->
  List.length vs = List.length items
  /\ Forall (fun v => author_name v = "You") vs
  /\ Forall (fun p => exists fields, p = JObj fields) items.
Proof.
  revert vs. induction items as [|p items IH]; intros vs H.
  - inversion H. repeat split; constructor.
  - cbn [view_posts] in H.
    destruct (view_post p) as [v|] eqn:Ev; [|discriminate].
    destruct (view_posts items) as [vs'|]; [|discriminate].
    inversion H; subst. destruct (IH vs' eq_refl) as (L & A & D).
    repeat split.
    + cbn. now rewrite L.
    + constructor; [now apply (view_post_author p) | assumption].
    + constructor; [now apply (view_post_dict p v) | assumption].
Qed.

(** X11: when the provider answers the fetch request with a status in
    200-299 and a dictionary whose "elements" is a list, the result is all or
    nothing: one view per element, in order, each with author name "You",
    when every element (and every dictionary on the path to its text) is a
    dictionary; and the empty list as soon as one element is not, however
    many good elements there are. *)
Theorem fetch_linkedin_posts_all_or_nothing tok urn env st code fields items :
  truthy tok = true ->
  truthy_str urn = true ->
  env (fetch_request tok urn :: outbound st) = Response code (Some (JObj fields)) ->
  is_success code = true ->
  assoc "elements" fields = Some (JArr items) ->
  fst (fetch_linkedin_posts tok urn env st)
  = Return (match view_posts items with Some vs => vs | None => [] end)
  /\
  (forall vs, view_posts items = Some vs ->
              List.length vs = List.length items
              /\ Forall (fun v => author_name v = "You") vs)
  /\
  (forall p, In p items -> (forall fs, p <> JObj fs) ->
             fst (fetch_linkedin_posts tok urn env st) = Return []).
Proof.
  intros Ht Hu Henv Hcode Helem.
  assert (E : fst (fetch_linkedin_posts tok urn env st)
              = Return (match view_posts items with Some vs => vs | None => [] end)).
  { unfold fetch_linkedin_posts. rewrite Ht, Hu. cbn [negb orb].
    unfold try_except, bind at 1, send. rewrite Henv.
    unfold bind at 1, raise_for_status. cbn [fst]. rewrite Hcode. cbn [ret].
    unfold bind at 1, response_json. cbn [snd ret].
    unfold bind at 1, lift, py_get. rewrite Helem.
    unfold bind at 1. cbn [py_len].
    unfold bind at 1. cbn [py_iter].
    unfold bind at 1.
    pose proof (format_posts_view items env
                  (mkState (user_tokens st) (fetch_request tok urn :: outbound st))) as Hv.
    destruct (view_posts items) as [vs|].
    - rewrite Hv. reflexivity.
    - destruct Hv as [e ->]. reflexivity. }
  split; [exact E|]. split.
  - intros vs Hvs. destruct (view_posts_shape items vs Hvs) as (L & A & _). now split.
  - intros p Hin Hnot. rewrite E.
    destruct (view_posts items) as [vs|] eqn:Hvs; [|reflexivity].
    destruct (view_posts_shape items vs Hvs) as (_ & _ & D).
    rewrite Forall_forall in D. destruct (D p Hin) as [fs ->].
    now destruct (Hnot fs).
Qed.

Lemma fetch_linkedin_posts_all_or_nothing_witness :
  fst (fetch_linkedin_posts (JStr "tok") "urn:li:person:123" (sample_provider true)
         initial_state)
  = Return [mkPost (JStr "hello") "You" (JNum 1700000000000)].
Proof.
  apply (proj1 (fetch_linkedin_posts_all_or_nothing (JStr "tok") "urn:li:person:123"
                  (sample_provider true) initial_state 200
                  [("elements", JArr [sample_post])] [sample_post]
                  eq_refl eq_refl eq_refl eq_refl eq_refl)).
Defined.

(** ** [POST /create_post], answer by answer *)

(** X12: with a non-empty [post_content] and a first session that holds a
    token and a URN, [create_post] redirects to "/" (303) exactly when the
    provider answers the create request with a status in 200-299 and a
    truthy JSON body; on every other answer it fetches the posts and renders
    the page with "Failed to create post.".  An accepted post whose answer
    has an empty body (the JSON object with no field, say) is thus reported
    as a failure. *)
Theorem create_post_follows_provider cfg post_content env st k ti rest :
  post_content <> "" ->
  user_tokens st = (k, ti) :: rest ->
  valid_session ti ->
  let create := create_request (access_token ti) (author_urn ti) post_content in
  let fetch := fetch_request (access_token ti) (author_urn ti) in
  let accepted :=
    match parsed_body (env (create :: outbound st)) with
    | Some v => truthy v
    | None => false
    end in
  (accepted = true ->
   create_post cfg post_content env st
   = (Return (RedirectResponse "/" 303), sent create st))
  /\
  (accepted = false ->
   exists posts,
     create_post cfg post_content env st
     = (Return (TemplateResponse "index.html"
                  [("request", CRequest); ("error", CStr "Failed to create post.");
                   ("posts", CPosts posts)]),
        sent fetch (sent create st))).
Proof.
  intros Hc Hs [Ht Hu] create fetch accepted.
  assert (E : create_post cfg post_content env st
              = bind (ret (match parsed_body (env (create :: outbound st)) with
                           | Some v => v
                           | None => JNull
                           end))
                  (fun post_created =>
                     if truthy post_created then ret (RedirectResponse "/" 303)
                     else
                       posts <- fetch_linkedin_posts (access_token ti) (author_urn ti) ;;
                       ret (TemplateResponse "index.html"
                              [("request", CRequest); ("error", CStr "Failed to create post.");
                               ("posts", CPosts posts)])) env (sent create st)).
  { rewrite (create_post_session cfg post_content env st k ti rest Hc Hs).
    unfold create_post_with. rewrite Ht, Hu. cbn [negb orb].
    unfold bind at 1. unfold create_linkedin_post. rewrite Ht, Hu. cbn [negb orb].
    rewrite plain_call. reflexivity. }
  assert (T : truthy (match parsed_body (env (create :: outbound st)) with
                      | Some v => v
                      | None => JNull
                      end) = accepted).
  { subst accepted. now destruct (parsed_body (env (create :: outbound st))). }
  split; intros Ha; rewrite E; unfold bind at 1; cbn [ret]; rewrite T, Ha.
  - reflexivity.
  - destruct (returns_fetch_linkedin_posts (access_token ti) (author_urn ti) env
                (sent create st)) as (posts & st2 & Hfetch).
    pose proof (fetch_linkedin_posts_sends (access_token ti) (author_urn ti) env
                  (sent create st) Ht Hu) as Hsent.
    rewrite Hfetch in Hsent. cbn [snd] in Hsent. subst st2.
    exists posts. unfold bind. now rewrite Hfetch.
Qed.

Lemma create_post_follows_provider_witness :
  create_post sample_config "hello" (sample_provider true)
    (mkState [(KStr "123", sample_session)] [])
  = (Return (RedirectResponse "/" 303),
     sent (create_request (JStr "tok") "urn:li:person:123" "hello")
       (mkState [(KStr "123", sample_session)] []))
  /\
  exists posts,
    create_post sample_config "hello" empty_body_provider
      (mkState [(KStr "123", sample_session)] [])
    = (Return (TemplateResponse "index.html"
                 [("request", CRequest); ("error", CStr "Failed to create post.");
                  ("posts", CPosts posts)]),
       sent (fetch_request (JStr "tok") "urn:li:person:123")
         (sent (create_request (JStr "tok") "urn:li:person:123" "hello")
            (mkState [(KStr "123", sample_session)] []))).
Proof.
  split.
  - apply (proj1 (create_post_follows_provider sample_config "hello" (sample_provider true)
                    (mkState [(KStr "123", sample_session)] []) (KStr "123")
                    sample_session [] ltac:(discriminate) eq_refl (conj eq_refl eq_refl))).
    reflexivity.
  - apply (proj2 (create_post_follows_provider sample_config "hello" empty_body_provider
                    (mkState [(KStr "123", sample_session)] []) (KStr "123")
                    sample_session [] ltac:(discriminate) eq_refl (conj eq_refl eq_refl))).
    reflexivity.
Defined.

(** ** Invariants of the token store *)

Lemma valid_dict_setitem d k v :
  valid_store d -> valid_session v -> valid_store (dict_setitem d k v).
Proof.
  intros Hd Hv. induction Hd as [|[k' v'] d Hk' Hd IH]; cbn [dict_setitem].
  - constructor; [exact Hv | constructor].
  - destruct (key_eqb k' k); constructor; assumption.
Qed.

Lemma profile_needs_token tok env st fields st' :
  get_linkedin_profile tok env st = (Return (JObj fields), st') -> truthy tok = true.
Proof.
  unfold get_linkedin_profile. destruct (truthy tok); [reflexivity|].
  cbn. discriminate.
Qed.

Lemma py_getitem_dict v k x : py_getitem v k = Return x -> exists fields, v = JObj fields.
Proof. destruct v as [| | | | |fields]; try discriminate. intros _. now exists fields. Qed.

(** What [callback] stores is a session the routes can use. *)
Lemma callback_valid cfg code error state env st :
  valid_store (user_tokens st) ->
  valid_store (user_tokens (snd (callback cfg code error state env st))).
Proof.
  intros Hv.
  destruct (callback cfg code error state env st) as [r st'] eqn:E. cbn [snd].
  destruct (callback_cases cfg code error state env st r st' E)
    as [[Hs _] | (token_data & tok & st1 & profile_data & st2 & uid & k
                  & _ & _ & Hprof & Hid & _ & Hs & _ & Hst)].
  - now rewrite Hs.
  - subst st'. cbn [stored user_tokens]. rewrite Hs.
    apply valid_dict_setitem; [exact Hv|].
    destruct (py_getitem_dict _ _ _ Hid) as [fields ->].
    split; [exact (profile_needs_token _ _ _ _ _ Hprof) | reflexivity].
Qed.

Lemma serve_keeps_or_callback cfg c env st :
  user_tokens (snd (serve cfg c env st)) = user_tokens st
  \/ exists code error state, c = GetCallback code error state.
Proof.
  destruct c as [| |code error callback_state|post_content|]; cbn [serve].
  - left. rewrite routed_state. apply keeps_read_root.
  - left. rewrite routed_state. apply keeps_login.
  - right. now exists code, error, callback_state.
  - left. destruct (truthy_str post_content); [|reflexivity].
    rewrite routed_state. apply keeps_create_post.
  - left. rewrite routed_state. apply keeps_refresh_posts_route.
Qed.

Lemma serve_valid cfg c env st :
  valid_store (user_tokens st) -> valid_store (user_tokens (snd (serve cfg c env st))).
Proof.
  intros Hv. destruct (serve_keeps_or_callback cfg c env st) as [-> | (code & error & state & ->)].
  - exact Hv.
  - cbn [serve]. rewrite routed_state. now apply callback_valid.
Qed.

Lemma serve_all_valid cfg env calls st :
  valid_store (user_tokens st) -> valid_store (user_tokens (serve_all cfg env calls st)).
Proof.
  revert st. induction calls as [|c calls IH]; intros st Hv; cbn [serve_all].
  - exact Hv.
  - apply IH. now apply serve_valid.
Qed.

(** X13: every record that ever sits in the token store holds a truthy
    access token and a non-empty author URN: the store starts empty and no
    sequence of requests to the five routes, whatever the provider answers,
    stores anything else. *)
Theorem token_store_stays_valid cfg env calls :
  valid_store (user_tokens (serve_all cfg env calls initial_state))
  /\ forall st, valid_store (user_tokens st) ->
                valid_store (user_tokens (serve_all cfg env calls st)).
Proof.
  split.
  - apply serve_all_valid. constructor.
  - intros st. apply serve_all_valid.
Qed.

Lemma token_store_stays_valid_witness :
  valid_store
    (user_tokens
       (serve_all sample_config (sample_provider true)
          [GetCallback (Some "code") None None; GetRoot]
          (mkState [(KStr "456", mkTokenInfo (JStr "tok2") "urn:li:person:456")] []))).
Proof.
  apply (proj2 (token_store_stays_valid sample_config (sample_provider true)
                  [GetCallback (Some "code") None None; GetRoot])).
  constructor; [split; reflexivity | constructor].
Defined.

(** X14: on a store reached from the empty one, the branches for a record
    without token or URN (lines 248-252 and 357-359) are dead: as soon as the
    store is not empty, [GET /] and [GET /refresh_posts] send the fetch
    request with the first record's token and render the authenticated
    page. *)
Theorem reached_store_is_authenticated cfg env calls env' k ti rest :
  let st := serve_all cfg env calls initial_state in
  user_tokens st = (k, ti) :: rest ->
  exists posts,
    let page :=
      TemplateResponse "index.html"
        [("request", CRequest); ("is_authenticated", CBool true); ("posts", CPosts posts)] in
    read_root cfg env' st
    = (Return page, sent (fetch_request (access_token ti) (author_urn ti)) st)
    /\ refresh_posts_route cfg env' st
       = (Return page, sent (fetch_request (access_token ti) (author_urn ti)) st).
Proof.
  intros st Hs.
  assert (Hv : valid_session ti).
  { pose proof (serve_all_valid cfg env calls initial_state (Forall_nil _)) as Hall.
    fold st in Hall. rewrite Hs in Hall. now inversion Hall. }
  destruct Hv as [Ht Hu].
  destruct (returns_fetch_linkedin_posts (access_token ti) (author_urn ti) env' st)
    as (posts & st2 & Hfetch).
  pose proof (fetch_linkedin_posts_sends (access_token ti) (author_urn ti) env' st Ht Hu)
    as Hsent.
  rewrite Hfetch in Hsent. cbn [snd] in Hsent. subst st2.
  exists posts. cbv zeta.
  rewrite (read_root_session cfg env' st k ti rest Hs).
  rewrite (refresh_posts_route_session cfg env' st k ti rest Hs).
  unfold posts_page_with. rewrite Ht, Hu. cbn [negb orb].
  unfold bind. rewrite Hfetch. split; reflexivity.
Qed.

Lemma reached_store_is_authenticated_witness :
  exists posts,
    read_root sample_config (sample_provider true)
      (serve_all sample_config (sample_provider true)
         [GetCallback (Some "code") None None] initial_state)
    = (Return (TemplateResponse "index.html"
                 [("request", CRequest); ("is_authenticated", CBool true);
                  ("posts", CPosts posts)]),
       sent (fetch_request (JStr "tok") "urn:li:person:123")
         (serve_all sample_config (sample_provider true)
            [GetCallback (Some "code") None None] initial_state)).
Proof.
  destruct (reached_store_is_authenticated sample_config (sample_provider true)
              [GetCallback (Some "code") None None] (sample_provider true)
              (KStr "123") sample_session [] eq_refl) as (posts & Hroot & _).
  exists posts. exact Hroot.
Defined.

(** ** Whose session is used *)

Lemma dict_setitem_head d k v k0 v0 :
  exists v1 d',
    dict_setitem ((k0, v0) :: d) k v = (k0, v1) :: d'
    /\ (v1 = v0 \/ (key_eqb k0 k = true /\ v1 = v)).
Proof.
  cbn [dict_setitem]. destruct (key_eqb k0 k) eqn:E.
  - exists v, d. split; [reflexivity | right; now split].
  - exists v0, (dict_setitem d k v). split; [reflexivity | now left].
Qed.

Lemma callback_first_entry cfg code error state env st k ti rest r st' :
  user_tokens st = (k, ti) :: rest ->
  callback cfg code error state env st = (r, st') ->
  exists ti' rest',
    user_tokens st' = (k, ti') :: rest'
    /\ (ti' = ti
        \/ exists tok k', key_eqb k k' = true
                          /\ ti' = mkTokenInfo tok ("urn:li:person:" ++ key_str k')).
Proof.
  intros Hs E.
  destruct (callback_cases cfg code error state env st r st' E)
    as [[Hk _] | (token_data & tok & st1 & profile_data & st2 & uid & k'
                  & _ & _ & _ & _ & _ & Hk & _ & Hst)].
  - exists ti, rest. split; [now rewrite Hk | now left].
  - subst st'. cbn [stored user_tokens]. rewrite Hk, Hs.
    destruct (dict_setitem_head rest k' (mkTokenInfo tok ("urn:li:person:" ++ key_str k')) k ti)
      as (v1 & d' & -> & [-> | [Heq ->]]).
    + exists ti, d'. split; [reflexivity | now left].
    + eexists. exists d'. split; [reflexivity|]. right. now exists tok, k'.
Qed.

Lemma serve_first_key cfg c env st k ti rest :
  user_tokens st = (k, ti) :: rest ->
  exists ti' rest', user_tokens (snd (serve cfg c env st)) = (k, ti') :: rest'.
Proof.
  intros Hs.
  destruct (serve_keeps_or_callback cfg c env st) as [E | (code & error & cstate & ->)].
  - exists ti, rest. now rewrite E.
  - cbn [serve]. rewrite routed_state.
    destruct (callback cfg code error cstate env st) as [r st'] eqn:E.
    destruct (callback_first_entry cfg code error cstate env st k ti rest r st' Hs E)
      as (ti' & rest' & H & _).
    now exists ti', rest'.
Qed.

(** X15: the user who authenticated first keeps the session: once the
    store is not empty, no sequence of requests changes the key of its first
    entry, which is the one every route reads; and one run of [callback]
    changes the first record only when the fetched profile id equals that
    key (the same user authenticating again), never when another user logs
    in. *)
Theorem first_user_keeps_the_session cfg env st k ti rest :
  user_tokens st = (k, ti) :: rest ->
  (forall calls, exists ti' rest',
      user_tokens (serve_all cfg env calls st) = (k, ti') :: rest')
  /\
  (forall code error state r st',
      callback cfg code error state env st = (r, st') ->
      exists ti' rest',
        user_tokens st' = (k, ti') :: rest'
        /\ (ti' = ti
            \/ exists tok k', key_eqb k k' = true
                              /\ ti' = mkTokenInfo tok ("urn:li:person:" ++ key_str k'))).
Proof.
  intros Hs. split.
  - intros calls. revert st ti rest Hs.
    induction calls as [|c calls IH]; intros st ti rest Hs; cbn [serve_all].
    + now exists ti, rest.
    + destruct (serve_first_key cfg c env st k ti rest Hs) as (ti1 & rest1 & H1).
      exact (IH _ ti1 rest1 H1).
  - intros code error cstate r st' E.
    exact (callback_first_entry cfg code error cstate env st k ti rest r st' Hs E).
Qed.

Lemma first_user_keeps_the_session_witness :
  exists ti' rest',
    user_tokens
      (serve_all sample_config (sample_provider true)
         [GetCallback (Some "code") None None; GetRoot]
         (mkState [(KStr "456", mkTokenInfo (JStr "tok2") "urn:li:person:456")] []))
    = (KStr "456", ti') :: rest'.
Proof.
  apply (proj1 (first_user_keeps_the_session sample_config (sample_provider true)
                  (mkState [(KStr "456", mkTokenInfo (JStr "tok2") "urn:li:person:456")] [])
                  (KStr "456") (mkTokenInfo (JStr "tok2") "urn:li:person:456") []
                  eq_refl)).
Defined.

(** A second user logs in: the store holds both, the routes still use the
    first. *)
Example second_login_is_ignored :
  let st :=
    serve_all sample_config (sample_provider true)
      [GetCallback (Some "code") None None]
      (mkState [(KStr "456", mkTokenInfo (JStr "tok2") "urn:li:person:456")] []) in
  user_tokens st
  = [ (KStr "456", mkTokenInfo (JStr "tok2") "urn:li:person:456");
      (KStr "123", mkTokenInfo (JStr "tok") "urn:li:person:123") ]
  /\ outbound (snd (read_root sample_config (sample_provider true) st))
     = fetch_request (JStr "tok2") "urn:li:person:456" :: outbound st.
Proof. split; reflexivity. Qed.

Lemma dict_setitem_keeps_keys d k v k' :
  dict_getitem d k' <> None -> dict_getitem (dict_setitem d k v) k' <> None.
Proof.
  induction d as [|[k0 v0] d IH]; cbn [dict_getitem dict_setitem]; intros H.
  - now destruct H.
  - destruct (key_eqb k0 k); cbn [dict_getitem];
      destruct (key_eqb k0 k'); try discriminate; auto.
Qed.

Lemma dict_setitem_length d k v :
  (List.length d <= List.length (dict_setitem d k v) <= S (List.length d))%nat.
Proof.
  induction d as [|[k0 v0] d IH]; cbn [dict_setitem].
  - cbn. lia.
  - destruct (key_eqb k0 k); cbn [List.length]; lia.
Qed.

Lemma serve_store_grows cfg c env st :
  (forall k, dict_getitem (user_tokens st) k <> None ->
             dict_getitem (user_tokens (snd (serve cfg c env st))) k <> None)
  /\ (List.length (user_tokens st)
      <= List.length (user_tokens (snd (serve cfg c env st)))
      <= List.length (user_tokens st) + (if is_callback c then 1 else 0))%nat.
Proof.
  destruct (serve_keeps_or_callback cfg c env st) as [E | (code & error & cstate & ->)].
  - rewrite E. split; [auto | lia].
  - cbn [serve is_callback]. rewrite routed_state.
    destruct (callback cfg code error cstate env st) as [r st'] eqn:E. cbn [snd].
    destruct (callback_cases cfg code error cstate env st r st' E)
      as [[Hk _] | (token_data & tok & st1 & profile_data & st2 & uid & k'
                    & _ & _ & _ & _ & _ & Hk & _ & Hst)].
    + rewrite Hk. split; [auto | lia].
    + subst st'. cbn [stored user_tokens]. rewrite Hk. split.
      * intros k H. now apply dict_setitem_keeps_keys.
      * pose proof (dict_setitem_length (user_tokens st) k'
                      (mkTokenInfo tok ("urn:li:person:" ++ key_str k'))). lia.
Qed.

(** X16: the token store only grows: no sequence of requests removes the
    entry of a key, and the number of entries never goes down and goes up by
    at most one for each request to [GET /callback]. *)
Theorem token_store_only_grows cfg env calls st :
  (forall k, dict_getitem (user_tokens st) k <> None ->
             dict_getitem (user_tokens (serve_all cfg env calls st)) k <> None)
  /\ (List.length (user_tokens st)
      <= List.length (user_tokens (serve_all cfg env calls st))
      <= List.length (user_tokens st) + List.length (filter is_callback calls))%nat.
Proof.
  revert st. induction calls as [|c calls IH]; intros st; cbn [serve_all filter].
  - split; [auto | cbn; lia].
  - destruct (serve_store_grows cfg c env st) as [K1 L1].
    destruct (IH (snd (serve cfg c env st))) as [K2 L2].
    split; [auto|].
    destruct (is_callback c); cbn [List.length] in *; lia.
Qed.

Lemma token_store_only_grows_witness :
  dict_getitem
    (user_tokens
       (serve_all sample_config (sample_provider true)
          [GetCallback (Some "code") None None; PostCreatePost "hello"]
          (mkState [(KStr "456", mkTokenInfo (JStr "tok2") "urn:li:person:456")] [])))
    (KStr "456")
  <> None.
Proof.
  apply (proj1 (token_store_only_grows sample_config (sample_provider true)
                  [GetCallback (Some "code") None None; PostCreatePost "hello"]
                  (mkState [(KStr "456", mkTokenInfo (JStr "tok2") "urn:li:person:456")] []))).
  discriminate.
Defined.

(** ** From the login to the first page *)

(** X17: the whole login on a fresh server, for any profile id that can
    be a key (a string, a number, a boolean, null): after a callback whose
    exchange gives a dictionary with "access_token" and whose profile has
    that id, the store holds the single record of that user with the URN
    "urn:li:person:" followed by the text of the id, and [GET /] then fetches
    the posts with the exchanged token and renders the authenticated page. *)
Theorem login_then_root cfg code env env' token_fields tok st1 profile_fields uid k st2 :
  truthy_opt code = true ->
  get_linkedin_access_token cfg (str_of code) env initial_state
  = (Return (JObj token_fields), st1) ->
  assoc "access_token" token_fields = Some tok ->
  get_linkedin_profile tok env st1 = (Return (JObj profile_fields), st2) ->
  assoc "id" profile_fields = Some uid ->
  hashable uid = Some k ->
  let urn := "urn:li:person:" ++ key_str k in
  let st' := serve_all cfg env [GetCallback code None None] initial_state in
  user_tokens st' = [(k, mkTokenInfo tok urn)]
  /\ exists posts,
       read_root cfg env' st'
       = (Return (TemplateResponse "index.html"
                    [("request", CRequest); ("is_authenticated", CBool true);
                     ("posts", CPosts posts)]),
          sent (fetch_request tok urn) st').
Proof.
  intros Hc Htok Ha Hprof Hid Hk urn st'.
  assert (E : callback cfg code None None env initial_state
              = (Return (RedirectResponse "/" 307), stored st2 k tok)).
  { apply (callback_success cfg code None None env initial_state (JObj token_fields) tok st1
             (JObj profile_fields) st2 uid k); try assumption; try reflexivity.
    - now apply (missing_object "access_token" token_fields tok).
    - cbn [py_getitem]. now rewrite Ha.
    - now apply (missing_object "id" profile_fields uid).
    - cbn [py_getitem]. now rewrite Hid. }
  assert (Hs : user_tokens st' = [(k, mkTokenInfo tok urn)]).
  { subst st'. cbn [serve_all serve]. rewrite routed_state, E.
    cbn [snd stored user_tokens].
    rewrite (keeps_at _ _ _ _ _ (keeps_get_linkedin_profile tok) Hprof).
    rewrite (keeps_at _ _ _ _ _ (keeps_get_linkedin_access_token cfg (str_of code)) Htok).
    reflexivity. }
  split; [exact Hs|].
  pose proof (profile_needs_token _ _ _ _ _ Hprof) as Ht.
  destruct (returns_fetch_linkedin_posts tok urn env' st') as (posts & st3 & Hfetch).
  pose proof (fetch_linkedin_posts_sends tok urn env' st' Ht eq_refl) as Hsent.
  rewrite Hfetch in Hsent. cbn [snd] in Hsent. subst st3.
  exists posts.
  rewrite (read_root_session cfg env' st' k (mkTokenInfo tok urn) [] Hs).
  unfold posts_page_with. cbn [access_token author_urn]. rewrite Ht.
  replace (truthy_str urn) with true by reflexivity. cbn [negb orb].
  unfold bind. now rewrite Hfetch.
Qed.

Lemma login_then_root_witness :
  user_tokens (serve_all sample_config (sample_provider true)
                 [GetCallback (Some "code") None None] initial_state)
  = [(KStr "123", mkTokenInfo (JStr "tok") "urn:li:person:123")].
Proof.
  apply (proj1 (login_then_root sample_config (Some "code") (sample_provider true)
                  (sample_provider true)
                  [("access_token", JStr "tok"); ("expires_in", JNum 5184000)] (JStr "tok")
                  (sent (token_request sample_config "code") initial_state)
                  [("id", JStr "123")] (JStr "123") (KStr "123")
                  (sent (profile_request (JStr "tok"))
                     (sent (token_request sample_config "code") initial_state))
                  eq_refl eq_refl eq_refl eq_refl eq_refl eq_refl)).
Defined.

(** A numeric profile id is stored under the number and spelled in
    decimal in the URN. *)
Example numeric_profile_id :
  user_tokens
    (serve_all sample_config
       (fun log =>
          match log with
          | [_] => Response 200 (Some (JObj [("access_token", JStr "tok")]))
          | _ => Response 200 (Some (JObj [("id", JNum 42)]))
          end)
       [GetCallback (Some "code") None None] initial_state)
  = [(KNum 42, mkTokenInfo (JStr "tok") "urn:li:person:42")].
Proof. reflexivity. Qed.

Lemma text_value_truthy (o : option string) :
  text_value o -> exists s, o = Some s /\ truthy_opt o = true.
Proof.
  intros (s & -> & Hne & _). exists s. split; [reflexivity|].
  cbn. unfold truthy_str. apply String.eqb_neq in Hne. now rewrite Hne.
Qed.

(** X18: with a client id and a redirect URI that are non-empty texts
    (valid UTF-8), [GET /login] redirects (307) to the provider's
    authorization URL, whatever characters the two texts hold (the URL ends
    with the fixed state value, so it can never be taken for the sentinel
    "/error"); and the page [GET /] renders for an empty store offers that
    same URL. *)
Theorem login_redirects_to_provider cfg env st :
  text_value (LINKEDIN_CLIENT_ID cfg) ->
  text_value (LINKEDIN_REDIRECT_URI cfg) ->
  exists client_id redirect_uri,
    LINKEDIN_CLIENT_ID cfg = Some client_id
    /\ LINKEDIN_REDIRECT_URI cfg = Some redirect_uri
    /\ login cfg env st
       = (Return (RedirectResponse (provider_url client_id redirect_uri) 307), st)
    /\ (user_tokens st = [] ->
        read_root cfg env st
        = (Return (TemplateResponse "index.html"
                     [("request", CRequest); ("is_authenticated", CBool false);
                      ("auth_url", CStr (provider_url client_id redirect_uri))]), st)).
Proof.
  intros H1 H2.
  destruct (text_value_truthy _ H1) as (client_id & E1 & T1).
  destruct (text_value_truthy _ H2) as (redirect_uri & E2 & T2).
  exists client_id, redirect_uri. split; [exact E1|]. split; [exact E2|]. split.
  - rewrite (login_redirects cfg env st T1 T2), E1, E2. reflexivity.
  - intros Hs. unfold read_root, bind, tokens_nonempty, bind, get_user_tokens.
    rewrite Hs. cbn [ret negb]. rewrite (auth_url_built cfg T1 T2), E1, E2. reflexivity.
Qed.

Lemma login_redirects_to_provider_witness :
  exists client_id redirect_uri,
    Some "client" = Some client_id
    /\ Some "http://localhost:8000/callback" = Some redirect_uri
    /\ login sample_config no_provider initial_state
       = (Return (RedirectResponse (provider_url client_id redirect_uri) 307), initial_state)
    /\ (user_tokens initial_state = [] ->
        read_root sample_config no_provider initial_state
        = (Return (TemplateResponse "index.html"
                     [("request", CRequest); ("is_authenticated", CBool false);
                      ("auth_url", CStr (provider_url client_id redirect_uri))]),
           initial_state)).
Proof.
  apply (login_redirects_to_provider sample_config no_provider initial_state).
  - exists "client". split; [reflexivity|]. split; [discriminate | reflexivity].
  - exists "http://localhost:8000/callback".
    split; [reflexivity|]. split; [discriminate | reflexivity].
Defined.

(** Two bytes of "é" are a text; the byte FF alone, a lone continuation
    byte, an overlong form and a surrogate are not. *)
Example valid_utf8_examples :
  valid_utf8 (String (ascii_of_nat 195) (String (ascii_of_nat 169) "")) = true
  /\ valid_utf8 (String (ascii_of_nat 255) "") = false
  /\ valid_utf8 (String (ascii_of_nat 169) "") = false
  /\ valid_utf8 (String (ascii_of_nat 192) (String (ascii_of_nat 128) "")) = false
  /\ valid_utf8 (String (ascii_of_nat 237) (String (ascii_of_nat 160)
                   (String (ascii_of_nat 128) ""))) = false
  /\ valid_utf8 (String (ascii_of_nat 240) (String (ascii_of_nat 159)
                   (String (ascii_of_nat 152) (String (ascii_of_nat 128) "")))) = true.
Proof. repeat split; reflexivity. Qed.

(** ** The text-generation helper *)

Lemma silent_has_candidates result : silent (has_candidates result).
Proof. unfold has_candidates. silent. Qed.

Lemma silent_first_candidate result : silent (first_candidate result).
Proof. unfold first_candidate. silent. Qed.

#[local] Hint Resolve silent_has_candidates silent_first_candidate : silent.

Lemma silent_has_parts result : silent (has_parts result).
Proof. unfold has_parts. silent. Qed.

Lemma silent_candidate_text result : silent (candidate_text result).
Proof. unfold candidate_text. silent. Qed.

#[local] Hint Resolve silent_has_parts silent_candidate_text : silent.

Lemma generate_returns exn_text api_key prompt :
  returns (generate_post_content_with_gemini exn_text api_key prompt).
Proof.
  unfold generate_post_content_with_gemini. destruct (negb _).
  - apply returns_ret.
  - apply returns_try. intros e. destruct e; apply returns_ret.
Qed.

Lemma generate_state exn_text api_key prompt env st :
  truthy_opt api_key = true ->
  snd (generate_post_content_with_gemini exn_text api_key prompt env st)
  = sent (gemini_request (str_of api_key) prompt) st.
Proof.
  intros H. unfold generate_post_content_with_gemini. rewrite H. cbn [negb].
  unfold try_except, bind at 1, send. fold (sent (gemini_request (str_of api_key) prompt) st).
  destruct (env (gemini_request (str_of api_key) prompt :: outbound st)) as [|code body].
  - reflexivity.
  - match goal with
    | |- snd (let (r, st') := ?k ?resp ?env ?s in _) = _ =>
        assert (Hk : silent (k resp)) by silent;
        specialize (Hk env s); destruct (k resp env s) as [[a|e] st1]
    end; cbn [snd] in *; subst; [reflexivity | destruct e; reflexivity].
Qed.

(** X19: neither Gemini helper can fail or touch the session: for every
    key, prompt and answer, [generate_post_content_with_gemini] and
    [summarize_post_with_gemini] return a value, leave the token store as it
    was and send at most the one generation request (to the endpoint that
    carries the key, with the prompt as the only text; the summary prompt is
    the fixed sentence, two newlines and the post); without a key they send
    nothing and return the notice that the key is missing. *)
Theorem gemini_helpers_are_contained exn_text api_key text env st :
  let prompt :=
    "Please summarize the following LinkedIn post:" ++ newline ++ newline ++ text in
  (exists v st',
      generate_post_content_with_gemini exn_text api_key text env st = (Return v, st')
      /\ (truthy_opt api_key = true ->
          st' = sent (gemini_request (str_of api_key) text) st)
      /\ (truthy_opt api_key = false ->
          st' = st /\ v = JStr "Gemini API key is missing. Please configure it."))
  /\
  (exists v st',
      summarize_post_with_gemini exn_text api_key text env st = (Return v, st')
      /\ (truthy_opt api_key = true ->
          st' = sent (gemini_request (str_of api_key) prompt) st)
      /\ (truthy_opt api_key = false ->
          st' = st /\ v = JStr "Gemini API key is missing. Please configure it.")).
Proof.
  intros prompt.
  assert (G : forall p, exists v st',
               generate_post_content_with_gemini exn_text api_key p env st = (Return v, st')
               /\ (truthy_opt api_key = true ->
                   st' = sent (gemini_request (str_of api_key) p) st)
               /\ (truthy_opt api_key = false ->
                   st' = st /\ v = JStr "Gemini API key is missing. Please configure it.")).
  { intros p.
    destruct (generate_returns exn_text api_key p env st) as (v & st' & E).
    exists v, st'. split; [exact E|]. split.
    - intros H. pose proof (generate_state exn_text api_key p env st H) as S.
      now rewrite E in S.
    - intros H. unfold generate_post_content_with_gemini in E. rewrite H in E.
      cbn in E. inversion E. now split. }
  split; [apply G | apply (G prompt)].
Qed.

Lemma gemini_helpers_are_contained_witness :
  exists v st',
    generate_post_content_with_gemini sample_exn_text None "Write a post" sample_gemini
      initial_state
    = (Return v, st')
    /\ st' = initial_state
    /\ v = JStr "Gemini API key is missing. Please configure it.".
Proof.
  destruct (proj1 (gemini_helpers_are_contained sample_exn_text None "Write a post"
                     sample_gemini initial_state)) as (v & st' & E & _ & H).
  exists v, st'. split; [exact E|]. exact (H eq_refl).
Defined.

(** The run of [generate_post_content_with_gemini] once the answer is a
    parsed body. *)
Lemma generate_on_body exn_text api_key prompt env st code body :
  truthy_opt api_key = true ->
  env (gemini_request (str_of api_key) prompt :: outbound st) = Response code (Some body) ->
  is_success code = true ->
  generate_post_content_with_gemini exn_text api_key prompt env st
  = try_except
      (candidates <- has_candidates body ;;
       if (candidates : bool) then
         parts <- has_parts body ;;
         if (parts : bool) then candidate_text body
         else ret (JStr "Could not generate content from Gemini.")
       else ret (JStr "Could not generate content from Gemini."))
      (fun e =>
         match e with
         | HTTPStatusError =>
             ret (JStr ("Error generating content with Gemini: " ++ exn_text e))
         | _ =>
             ret (JStr ("An unexpected error occurred with Gemini: " ++ exn_text e))
         end)
      env (sent (gemini_request (str_of api_key) prompt) st).
Proof.
  intros Hk Henv Hcode. unfold generate_post_content_with_gemini. rewrite Hk. cbn [negb].
  unfold try_except. unfold bind at 1. unfold send. rewrite Henv.
  fold (sent (gemini_request (str_of api_key) prompt) st).
  unfold bind at 1. unfold raise_for_status. cbn [fst]. rewrite Hcode. cbn [ret].
  unfold bind at 1. unfold response_json. cbn [snd ret].
  reflexivity.
Qed.

(** X20: with a key, when the service answers with a status in 200-299 and
    a body whose [candidates] is a list that starts with a dictionary, whose
    [content] is a dictionary, whose [parts] is a list that starts with a
    dictionary with a [text], [generate_post_content_with_gemini] returns
    that text as it is: whatever JSON value it is, a string or not. *)
Theorem generate_returns_candidate_text exn_text api_key prompt env st
    code fields candidate more content more_parts text_fields t :
  truthy_opt api_key = true ->
  env (gemini_request (str_of api_key) prompt :: outbound st)
  = Response code (Some (JObj fields)) ->
  is_success code = true ->
  assoc "candidates" fields = Some (JArr (JObj candidate :: more)) ->
  assoc "content" candidate = Some (JObj content) ->
  assoc "parts" content = Some (JArr (JObj text_fields :: more_parts)) ->
  assoc "text" text_fields = Some t ->
  generate_post_content_with_gemini exn_text api_key prompt env st
  = (Return t, sent (gemini_request (str_of api_key) prompt) st).
Proof.
  intros Hk Henv Hcode Hc Hcontent Hparts Ht.
  rewrite (generate_on_body exn_text api_key prompt env st code (JObj fields) Hk Henv Hcode).
  assert (T : truthy (JObj fields) = true) by (destruct fields; [discriminate | reflexivity]).
  unfold try_except, has_candidates, has_parts, candidate_text, first_candidate.
  rewrite T. cbn [negb].
  unfold bind, lift, ret. cbn [py_in py_getitem].
  rewrite Hc. cbn [negb truthy py_first py_in py_getitem].
  rewrite Hcontent. cbn [negb py_in py_getitem].
  rewrite Hparts. cbn [negb truthy py_first py_getitem].
  rewrite Ht. reflexivity.
Qed.

Lemma generate_returns_candidate_text_witness :
  generate_post_content_with_gemini sample_exn_text (Some "key") "Write a post"
    sample_gemini initial_state
  = (Return (JStr "A post."),
     sent (gemini_request "key" "Write a post") initial_state).
Proof.
  apply (generate_returns_candidate_text sample_exn_text (Some "key") "Write a post"
           sample_gemini initial_state 200
           [("candidates",
              JArr [JObj [("content",
                            JObj [("parts", JArr [JObj [("text", JStr "A post.")]])])]])]
           [("content", JObj [("parts", JArr [JObj [("text", JStr "A post.")]])])]
           []
           [("parts", JArr [JObj [("text", JStr "A post.")]])]
           []
           [("text", JStr "A post.")] (JStr "A post.")
           eq_refl eq_refl eq_refl eq_refl eq_refl eq_refl eq_refl).
Defined.

(** X21: what [generate_post_content_with_gemini] returns when there is
    nothing to extract or the call fails, with a key set: "Could not generate
    content from Gemini." for a parsed body that is falsy or a dictionary
    without candidates (no key or an empty list); "Error generating content
    with Gemini: " and the text of the error for a status outside 200-299;
    "An unexpected error occurred with Gemini: " and the text of the error
    for a transport failure and for a body that is not JSON. *)
Theorem generate_diagnostics exn_text api_key prompt env st :
  truthy_opt api_key = true ->
  let answer := env (gemini_request (str_of api_key) prompt :: outbound st) in
  let result := fst (generate_post_content_with_gemini exn_text api_key prompt env st) in
  (forall code body,
     answer = Response code (Some body) -> is_success code = true ->
     truthy body = false
     \/ (exists fields, body = JObj fields
                        /\ (assoc "candidates" fields = None
                            \/ assoc "candidates" fields = Some (JArr []))) ->
     result = Return (JStr "Could not generate content from Gemini."))
  /\
  (forall code body,
     answer = Response code body -> is_success code = false ->
     result = Return (JStr ("Error generating content with Gemini: "
                            ++ exn_text HTTPStatusError)))
  /\
  (answer = ConnectError ->
   result = Return (JStr ("An unexpected error occurred with Gemini: "
                          ++ exn_text RequestError)))
  /\
  (forall code,
     answer = Response code None -> is_success code = true ->
     result = Return (JStr ("An unexpected error occurred with Gemini: "
                            ++ exn_text JSONDecodeError))).
Proof.
  intros Hk answer result. subst answer result.
  split; [|split; [|split]].
  - intros code body Henv Hcode Hbad.
    rewrite (generate_on_body exn_text api_key prompt env st code body Hk Henv Hcode).
    unfold try_except, has_candidates.
    destruct Hbad as [Hf | (fields & -> & Hc)].
    + rewrite Hf. reflexivity.
    + destruct fields as [|f fields]; [reflexivity|].
      cbn [truthy negb]. unfold bind, lift, ret. cbn [py_in py_getitem].
      destruct Hc as [-> | ->]; reflexivity.
  - intros code body Henv Hcode.
    unfold generate_post_content_with_gemini. rewrite Hk. cbn [negb].
    unfold try_except. unfold bind at 1. unfold send. rewrite Henv.
    unfold bind at 1. unfold raise_for_status. cbn [fst]. rewrite Hcode. reflexivity.
  - intros Henv.
    unfold generate_post_content_with_gemini. rewrite Hk. cbn [negb].
    unfold try_except. unfold bind at 1. unfold send. rewrite Henv. reflexivity.
  - intros code Henv Hcode.
    unfold generate_post_content_with_gemini. rewrite Hk. cbn [negb].
    unfold try_except. unfold bind at 1. unfold send. rewrite Henv.
    unfold bind at 1. unfold raise_for_status. cbn [fst]. rewrite Hcode. reflexivity.
Qed.

Lemma generate_diagnostics_witness :
  fst (generate_post_content_with_gemini sample_exn_text (Some "key") "Write a post"
         no_provider initial_state)
  = Return (JStr "An unexpected error occurred with Gemini: All connection attempts failed")
  /\
  fst (generate_post_content_with_gemini sample_exn_text (Some "key") "Write a post"
         empty_body_provider initial_state)
  = Return (JStr "Could not generate content from Gemini.").
Proof.
  split.
  - apply (proj1 (proj2 (proj2 (generate_diagnostics sample_exn_text (Some "key")
                                  "Write a post" no_provider initial_state eq_refl)))).
    reflexivity.
  - apply (proj1 (generate_diagnostics sample_exn_text (Some "key") "Write a post"
                    empty_body_provider initial_state eq_refl) 201 (JObj []));
      [reflexivity | reflexivity | left; reflexivity].
Defined.

(** ** Before anyone has logged in *)



(** ** Requests that do not reach their route *)

(** A non-empty [post_content] passes the validation and the request is
    handed to [create_post]. *)
Lemma post_content_reaches_route cfg post_content :
  post_content <> "" ->
  serve cfg (PostCreatePost post_content) = routed (create_post cfg post_content).
Proof.
  intros H. cbn [serve]. unfold truthy_str.
  apply String.eqb_neq in H. now rewrite H.
Qed.

(** C9: a [POST /create_post] whose [post_content] is empty does not get
    the page with the error "Post content cannot be empty.": line 309
    declares the field required, so the validation answers 422 and
    [create_post] is not called, for every token store, the empty one
    included; the check of lines 311-312, which renders that page with an
    empty list of posts before the store is read, is never reached by a
    request. *)
Theorem empty_post_content_is_answered_422 cfg env st :
  let page :=
    TemplateResponse "index.html"
      [("request", CRequest); ("error", CStr "Post content cannot be empty.");
       ("posts", CPosts [])] in
  serve cfg (PostCreatePost "") env st = (Return Unprocessable, st)
  /\ served_status (fst (serve cfg (PostCreatePost "") env st)) = 422
  /\ serve cfg (PostCreatePost "") env (mkState [] (outbound st))
     = (Return Unprocessable, mkState [] (outbound st))
  /\ create_post cfg "" env st = (Return page, st).
Proof. repeat split; reflexivity. Qed.
